(** * Expense tracker backend: data access layer and request mapping

    A shallow embedding of [backend/db_helper.py] (class [ExpenseDatabase])
    and [backend/server.py] (the FastAPI handlers), with the properties of
    the specification stated over it.

    Python code that talks to the MySQL driver is written in a small
    state-and-exception monad over a [world]: the server's table, the local
    variables [conn] and [cursor] of the context manager, and the record of
    driver calls made so far (what a mock of the driver would record).
    What the driver does at each call (pass or raise, keep or lose the
    link) is given by a [script], so every exit path can be replayed.

    Amounts are Python floats in the source; they are modelled by rationals,
    on which the only operations used (comparison with zero, SUM) are exact.
    Logging calls have no effect on any result and are left out. *)

From stdpp Require Import gmap strings list pretty.
From Stdlib Require Import QArith Ascii.

Local Open Scope string_scope.
Local Open Scope Z_scope.

(** ** Values, dates, rows *)

(** [datetime.date]: ordered as the tuple (year, month, day). *)
Record date := Date { year : Z; month : Z; day : Z }.

#[global] Instance date_eq_dec : EqDecision date.
Proof. solve_decision. Defined.

Definition date_compare (a b : date) : comparison :=
  match year a ?= year b with
  | Eq => match month a ?= month b with
          | Eq => day a ?= day b
          | c => c
          end
  | c => c
  end.

(** [a > b] and [a <= b] on dates. *)
Definition date_gt (a b : date) : bool :=
  match date_compare a b with Gt => true | _ => false end.

Definition date_le (a b : date) : bool := negb (date_gt a b).

(** [str(d)], the ISO form [YYYY-MM-DD] used in the f-strings. *)
Definition zero_pad (width : nat) (s : string) : string :=
  String.concat "" (replicate (width - String.length s) "0") +:+ s.

Definition str_date (d : date) : string :=
  zero_pad 4 (pretty (year d)) +:+ "-" +:+
  zero_pad 2 (pretty (month d)) +:+ "-" +:+
  zero_pad 2 (pretty (day d)).

(** A cell of a result row or a bound statement parameter. *)
Inductive value :=
  | VInt (z : Z)
  | VNum (q : Q)
  | VStr (s : string)
  | VDate (d : date).

(** A row as the dictionary cursor returns it: column name to value. *)
Abbreviation dict := (gmap string value).

(** One row of the table [expenses]. *)
Record row := Row {
  row_id : Z;
  row_expense_date : date;
  row_category : string;
  row_notes : string;
  row_amount : Q
}.

Definition row_dict (r : row) : dict :=
  <["id" := VInt (row_id r)]>
  (<["expense_date" := VDate (row_expense_date r)]>
  (<["category" := VStr (row_category r)]>
  (<["notes" := VStr (row_notes r)]>
  (<["amount" := VNum (row_amount r)]> ∅)))).

(** ** Exceptions and the driver's behaviour *)

Inductive exn :=
  | MySQLError (msg : string)          (* mysql.connector.Error *)
  | OtherError (msg : string)          (* any other Exception *)
  | HTTPException (status_code : Z) (detail : string).

(** What one driver call does: it returns, or it raises (and the link to
    the server may be gone afterwards). *)
Inductive outcome :=
  | Pass
  | Fail (e : exn) (link_lost : bool).

(** The driver's behaviour during one data access operation: what each of
    the calls the context manager and the operation can make does.
    [lost_after_body] is a link that goes down without any call raising:
    the next [is_connected()] then answers False. *)
Record script := Script {
  on_connect : outcome;
  on_cursor : outcome;
  on_execute : outcome;
  on_fetchall : outcome;
  lost_after_body : bool;
  on_commit : outcome;
  on_rollback : outcome;
  on_cursor_close : outcome;
  on_conn_close : outcome
}.

(** The driver working without any failure. *)
Definition calm : script := Script Pass Pass Pass Pass false Pass Pass Pass Pass.

(** ** The database handle *)

Record ExpenseDatabase := {
  host : string;
  user : string;
  password : string;
  database : string
}.

(** Python's [a or b] on an optional string argument: [None] and the empty
    string are both falsy. *)
Definition py_or (a : option string) (b : string) : string :=
  match a with
  | Some s => if decide (s = "") then b else s
  | None => b
  end.

Definition getenv (env : gmap string string) (key fallback : string) : string :=
  default fallback (env !! key).

(** [ExpenseDatabase.__init__]. *)
Definition ExpenseDatabase_init (env : gmap string string)
    (host user password database : option string) : ExpenseDatabase :=
  {| host := py_or host (getenv env "DB_HOST" "localhost");
     user := py_or user (getenv env "DB_USER" "root");
     password := py_or password (getenv env "DB_PASSWORD" "1234");
     database := py_or database (getenv env "DB_NAME" "expense_manager") |}.

(** ** The world *)

Inductive call :=
  | CConnect (cfg : ExpenseDatabase)
  | CCursor
  | CExecute (query : string) (params : list value)
  | CFetchall
  | CCommit
  | CRollback
  | CCursorClose
  | CConnClose.

Record world := World {
  table : list row;             (* committed rows of [expenses] *)
  auto_increment : Z;           (* next id the server hands out *)
  txn : option (list row);      (* uncommitted working copy of the open connection *)
  conn : option bool;           (* local [conn]: None, or Some (link is up) *)
  cursor : option bool;         (* local [cursor]: None, or Some (still open) *)
  fetched : list dict;          (* result set held by the cursor *)
  rowcount : Z;                 (* cursor.rowcount *)
  lastrowid : Z;                (* cursor.lastrowid *)
  calls : list call             (* driver calls so far, latest first *)
}.

Definition set_table (f : list row → list row) (w : world) : world :=
  World (f (table w)) (auto_increment w) (txn w) (conn w) (cursor w)
        (fetched w) (rowcount w) (lastrowid w) (calls w).
Definition set_auto_increment (n : Z) (w : world) : world :=
  World (table w) n (txn w) (conn w) (cursor w)
        (fetched w) (rowcount w) (lastrowid w) (calls w).
Definition set_txn (t : option (list row)) (w : world) : world :=
  World (table w) (auto_increment w) t (conn w) (cursor w)
        (fetched w) (rowcount w) (lastrowid w) (calls w).
Definition set_conn (c : option bool) (w : world) : world :=
  World (table w) (auto_increment w) (txn w) c (cursor w)
        (fetched w) (rowcount w) (lastrowid w) (calls w).
Definition set_cursor (c : option bool) (w : world) : world :=
  World (table w) (auto_increment w) (txn w) (conn w) c
        (fetched w) (rowcount w) (lastrowid w) (calls w).
Definition set_fetched (l : list dict) (w : world) : world :=
  World (table w) (auto_increment w) (txn w) (conn w) (cursor w)
        l (rowcount w) (lastrowid w) (calls w).
Definition set_rowcount (n : Z) (w : world) : world :=
  World (table w) (auto_increment w) (txn w) (conn w) (cursor w)
        (fetched w) n (lastrowid w) (calls w).
Definition set_lastrowid (n : Z) (w : world) : world :=
  World (table w) (auto_increment w) (txn w) (conn w) (cursor w)
        (fetched w) (rowcount w) n (calls w).
Definition log (c : call) (w : world) : world :=
  World (table w) (auto_increment w) (txn w) (conn w) (cursor w)
        (fetched w) (rowcount w) (lastrowid w) (c :: calls w).

(** The rows the open connection sees: its own uncommitted copy if it has
    one, the committed table otherwise. *)
Definition view (w : world) : list row := default (table w) (txn w).

(** The link goes down: the server ends the session and discards whatever
    the connection had not committed. *)
Definition lose_link (w : world) : world := set_txn None (set_conn (Some false) w).

(** ** The monad *)

Inductive result (A : Type) :=
  | Return (a : A)
  | Raise (e : exn).
Arguments Return {A} a.
Arguments Raise {A} e.

Definition M (A : Type) : Type := world → result A * world.

Definition ret {A} (a : A) : M A := λ w, (Return a, w).
Definition raise {A} (e : exn) : M A := λ w, (Raise e, w).
Definition bind {A B} (m : M A) (k : A → M B) : M B :=
  λ w, match m w with
       | (Return a, w') => k a w'
       | (Raise e, w') => (Raise e, w')
       end.
Definition get {A} (f : world → A) : M A := λ w, (Return (f w), w).
Definition modify (f : world → world) : M unit := λ w, (Return tt, f w).

Notation "'let*' x ':=' m 'in' k" := (bind m (λ x, k))
  (at level 10, x name, m at level 100, k at level 200).
Notation "m ';;;' k" := (bind m (λ _, k))
  (at level 100, k at level 200, right associativity).

(** [try: m except <e>: h e] where [h] re-raises what it does not catch. *)
Definition try_except {A} (m : M A) (h : exn → M A) : M A :=
  λ w, match m w with
       | (Return a, w') => (Return a, w')
       | (Raise e, w') => h e w'
       end.

(** [try: m finally: f]. *)
Definition try_finally {A} (m : M A) (f : M unit) : M A :=
  λ w, match m w with
       | (r, w') => match f w' with
                    | (Return _, w'') => (r, w'')
                    | (Raise e, w'') => (Raise e, w'')
                    end
       end.

Definition when (b : bool) (m : M unit) : M unit := if b then m else ret tt.

(** ** The driver: [mysql.connector] against one table

    Each primitive records its call, then follows the [outcome] the script
    gives it. The driver and the server are not part of the repository;
    they are modelled as follows. Every call may raise, [rollback] and
    the two [close] calls included; [is_connected] is a query that answers
    and does not raise. A call that raises has no effect of its own (the
    link may be lost with it). Changes made by [execute] stay in the
    connection's working copy until [commit] and are discarded by
    [rollback], by [conn.close] and when the link is lost. The id counter
    of the table is advanced by every INSERT that is executed and is not
    part of the transaction. *)

(** Truth value of the locals [conn] and [cursor]: an object is truthy,
    [None] is not. *)
Definition has_conn (w : world) : bool :=
  match conn w with Some _ => true | None => false end.
Definition has_cursor (w : world) : bool :=
  match cursor w with Some _ => true | None => false end.

(** [conn.is_connected()]. *)
Definition is_connected (w : world) : bool := default false (conn w).

Definition fail {A} (e : exn) (link_lost : bool) : M A :=
  when link_lost (modify lose_link) ;;; raise e.

(** [mysql.connector.connect(host=..., user=..., password=..., database=...)]. *)
Definition connect (self : ExpenseDatabase) (o : outcome) : M unit :=
  modify (log (CConnect self)) ;;;
  match o with
  | Pass => modify (λ w, set_txn None (set_conn (Some true) w))
  | Fail e _ => raise e
  end.

(** [conn.cursor(dictionary=True)]. *)
Definition conn_cursor (o : outcome) : M unit :=
  modify (log CCursor) ;;;
  match o with
  | Pass => modify (set_cursor (Some true))
  | Fail e lost => fail e lost
  end.

(** The four statements of the source, as the strings passed to
    [cursor.execute]. *)
Definition nl : string := String "010"%char EmptyString.

Definition SELECT_FOR_DATE : string :=
  "SELECT * FROM expenses WHERE expense_date = %s".
Definition DELETE_FOR_DATE : string :=
  "DELETE FROM expenses WHERE expense_date = %s".
Definition INSERT_EXPENSE : string :=
  "INSERT INTO expenses (expense_date, category, notes, amount) VALUES (%s, %s, %s, %s)".
Definition SELECT_SUMMARY : string :=
  nl +:+ "                SELECT category, SUM(amount) as total_amount " +:+
  nl +:+ "                FROM expenses " +:+
  nl +:+ "                WHERE expense_date BETWEEN %s AND %s " +:+
  nl +:+ "                GROUP BY category" +:+
  nl +:+ "            ".

Definition for_date (d : date) (rows : list row) : list row :=
  filter (λ r, row_expense_date r = d) rows.

Definition not_for_date (d : date) (rows : list row) : list row :=
  filter (λ r, row_expense_date r ≠ d) rows.

(** [expense_date BETWEEN s AND e]. *)
Definition between (s e : date) (r : row) : bool :=
  date_le s (row_expense_date r) && date_le (row_expense_date r) e.

Definition sum_amounts (rows : list row) : Q :=
  foldr (λ r acc, Qplus (row_amount r) acc) (0 # 1)%Q rows.

(** [SELECT category, SUM(amount) ... GROUP BY category]: one row per
    category that occurs in the range. *)
Definition summary_of (s e : date) (rows : list row) : list dict :=
  let hits := filter (λ r, between s e r = true) rows in
  (λ c, <["category" := VStr c]>
        (<["total_amount" :=
             VNum (sum_amounts (filter (λ r, row_category r = c) hits))]> ∅))
  <$> remove_dups (row_category <$> hits).

(** The effect of a statement with its bound parameters on the world, or
    [None] where the server refuses it. *)
Definition run_statement (query : string) (params : list value) (w : world)
    : option world :=
  if decide (query = SELECT_FOR_DATE) then
    match params with
    | [VDate d] => Some (set_fetched (row_dict <$> for_date d (view w)) w)
    | _ => None
    end
  else if decide (query = DELETE_FOR_DATE) then
    match params with
    | [VDate d] =>
        Some (set_rowcount (Z.of_nat (length (for_date d (view w))))
                (set_txn (Some (not_for_date d (view w))) w))
    | _ => None
    end
  else if decide (query = INSERT_EXPENSE) then
    match params with
    | [VDate d; VStr c; VStr n; VNum a] =>
        let new_id := auto_increment w in
        Some (set_lastrowid new_id
                (set_rowcount 1
                   (set_auto_increment (new_id + 1)
                      (set_txn (Some (view w ++ [Row new_id d c n a])%list) w))))
    | _ => None
    end
  else if decide (query = SELECT_SUMMARY) then
    match params with
    | [VDate s; VDate e] => Some (set_fetched (summary_of s e (view w)) w)
    | _ => None
    end
  else None.

(** [cursor.execute(query, params)]. *)
Definition cursor_execute (o : outcome) (query : string) (params : list value)
    : M unit :=
  modify (log (CExecute query params)) ;;;
  match o with
  | Pass => λ w, match run_statement query params w with
                 | Some w' => (Return tt, w')
                 | None => (Raise (MySQLError "ProgrammingError"), w)
                 end
  | Fail e lost => fail e lost
  end.

(** [cursor.fetchall()]. *)
Definition cursor_fetchall (o : outcome) : M (list dict) :=
  modify (log CFetchall) ;;;
  match o with
  | Pass => get fetched
  | Fail e lost => fail e lost
  end.

(** [conn.commit()]: the working copy becomes the table. *)
Definition conn_commit (o : outcome) : M unit :=
  modify (log CCommit) ;;;
  match o with
  | Pass => modify (λ w, set_txn None (set_table (λ _, view w) w))
  | Fail e lost => fail e lost
  end.

(** [conn.rollback()]: the working copy is dropped. *)
Definition conn_rollback (o : outcome) : M unit :=
  modify (log CRollback) ;;;
  match o with
  | Pass => modify (set_txn None)
  | Fail e lost => fail e lost
  end.

(** [cursor.close()]. *)
Definition cursor_close (o : outcome) : M unit :=
  modify (log CCursorClose) ;;;
  match o with
  | Pass => modify (set_cursor (Some false))
  | Fail e lost => fail e lost
  end.

(** [conn.close()]: the session ends, uncommitted work is discarded. *)
Definition conn_close (o : outcome) : M unit :=
  modify (log CConnClose) ;;;
  match o with
  | Pass => modify lose_link
  | Fail e lost => fail e lost
  end.

(** ** [db_helper.py]: the context manager and the four operations *)

(** The [try] block of [_get_db_cursor], with the [with] body run at the
    [yield]. *)
Definition _get_db_cursor_try {A} (self : ExpenseDatabase) (sc : script)
    (commit : bool) (body : M A) : M A :=
  connect self (on_connect sc) ;;;
  conn_cursor (on_cursor sc) ;;;
  let* x := body in
  when (lost_after_body sc) (modify lose_link) ;;;
  let* up := get is_connected in
  when (commit && up) (conn_commit (on_commit sc)) ;;;
  ret x.

(** The [except mysql.connector.Error as err] clause: the bare [raise] is
    reached when [rollback()] returns or is not called. *)
Definition _get_db_cursor_except {A} (sc : script) (commit : bool)
    (err : exn) : M A :=
  match err with
  | MySQLError _ =>
      let* c := get has_conn in
      let* up := get is_connected in
      when (commit && c && up) (conn_rollback (on_rollback sc)) ;;;
      raise err
  | _ => raise err
  end.

(** The [finally] clause: [conn.close()] is reached when [cursor.close()]
    returns or is not called. *)
Definition _get_db_cursor_finally (sc : script) : M unit :=
  let* cur := get has_cursor in
  when cur (cursor_close (on_cursor_close sc)) ;;;
  let* c := get has_conn in
  let* up := get is_connected in
  when (c && up) (conn_close (on_conn_close sc)).

(** Everything that runs before the [finally] clause is entered. *)
Definition _get_db_cursor_guarded {A} (self : ExpenseDatabase) (sc : script)
    (commit : bool) (body : M A) : M A :=
  modify (λ w, set_cursor None (set_conn None w)) ;;;
  try_except (_get_db_cursor_try self sc commit body)
             (_get_db_cursor_except sc commit).

Definition _get_db_cursor {A} (self : ExpenseDatabase) (sc : script)
    (commit : bool) (body : M A) : M A :=
  try_finally (_get_db_cursor_guarded self sc commit body)
              (_get_db_cursor_finally sc).

(** The statements inside each [with] block. *)
Definition fetch_expenses_for_date_body (sc : script) (expense_date : date)
    : M (list dict) :=
  cursor_execute (on_execute sc) SELECT_FOR_DATE [VDate expense_date] ;;;
  let* results := cursor_fetchall (on_fetchall sc) in
  ret results.

Definition delete_expenses_for_date_body (sc : script) (expense_date : date)
    : M Z :=
  cursor_execute (on_execute sc) DELETE_FOR_DATE [VDate expense_date] ;;;
  let* deleted_count := get rowcount in
  ret deleted_count.

Definition insert_expense_body (sc : script) (expense_date : date)
    (category notes : string) (amount : Q) : M Z :=
  cursor_execute (on_execute sc) INSERT_EXPENSE
    [VDate expense_date; VStr category; VStr notes; VNum amount] ;;;
  let* inserted_id := get lastrowid in
  ret inserted_id.

Definition fetch_expense_summary_body (sc : script)
    (start_date end_date : date) : M (list dict) :=
  cursor_execute (on_execute sc) SELECT_SUMMARY
    [VDate start_date; VDate end_date] ;;;
  let* results := cursor_fetchall (on_fetchall sc) in
  ret results.

Definition fetch_expenses_for_date (self : ExpenseDatabase) (sc : script)
    (expense_date : date) : M (list dict) :=
  _get_db_cursor self sc false (fetch_expenses_for_date_body sc expense_date).

Definition delete_expenses_for_date (self : ExpenseDatabase) (sc : script)
    (expense_date : date) : M Z :=
  _get_db_cursor self sc true (delete_expenses_for_date_body sc expense_date).

Definition insert_expense (self : ExpenseDatabase) (sc : script)
    (expense_date : date) (category notes : string) (amount : Q) : M Z :=
  _get_db_cursor self sc true
    (insert_expense_body sc expense_date category notes amount).

Definition fetch_expense_summary (self : ExpenseDatabase) (sc : script)
    (start_date end_date : date) : M (list dict) :=
  _get_db_cursor self sc false
    (fetch_expense_summary_body sc start_date end_date).

(** ** [server.py]: the pydantic models

    A model instance is built from field values that have already been
    read at the declared type: [None] stands for a field that is absent or
    that pydantic cannot read at that type. *)

(** [Field(gt=0)]. *)
Definition gt0 (a : Q) : bool := negb (Qle_bool a (0 # 1)).

Definition as_str (v : value) : option string :=
  match v with VStr s => Some s | _ => None end.

Definition as_float (v : value) : option Q :=
  match v with
  | VNum q => Some q
  | VInt z => Some (inject_Z z)
  | _ => None
  end.

Module Expense.
Record raw := Raw {
  raw_category : option string;
  raw_notes : option string;
  raw_amount : option Q
}.

Record t := Make { category : string; notes : string; amount : Q }.

(** Validation of one item: both texts present, the amount present and
    greater than zero. *)
Definition validate (r : raw) : option t :=
  c ← raw_category r;
  n ← raw_notes r;
  a ← raw_amount r;
  if gt0 a then Some (Make c n a) else None.

(** Field values read out of a mapping; keys the model does not declare
    are ignored. *)
Definition of_dict (o : dict) : raw :=
  Raw (o !! "category" ≫= as_str) (o !! "notes" ≫= as_str)
      (o !! "amount" ≫= as_float).

(** The JSON object written for an instance. *)
Definition dump (e : t) : dict :=
  <["category" := VStr (category e)]>
  (<["notes" := VStr (notes e)]>
  (<["amount" := VNum (amount e)]> ∅)).
End Expense.

Module ExpenseSummary.
Record t := Make { category : string; total_amount : Q }.

Definition of_dict (o : dict) : option t :=
  c ← o !! "category" ≫= as_str;
  a ← o !! "total_amount" ≫= as_float;
  Some (Make c a).

Definition dump (e : t) : dict :=
  <["category" := VStr (category e)]>
  (<["total_amount" := VNum (total_amount e)]> ∅).
End ExpenseSummary.

Record ExpenseCreateResponse := {
  created_message : string;
  inserted_count : Z;
  inserted_ids : list Z
}.

Record ExpenseDeleteResponse := {
  deleted_message : string;
  deleted_count : Z
}.

(** ** [server.py]: the handlers

    [db] is the module-level handle: [None] when no storage configuration
    succeeded at startup. A handler that calls the data access layer
    several times uses [scs 0], [scs 1], ... for the successive calls. *)

Definition no_database {A} : M A :=
  raise (HTTPException 503 "Database connection is not available.").

Definition health_check (db : option ExpenseDatabase) (sc : script)
    (today : date) : M (gmap string string) :=
  let health_status : gmap string string :=
    <["status" := "healthy"]> (<["database" := "disconnected"]> ∅) in
  match db with
  | Some self =>
      try_except
        (fetch_expenses_for_date self sc today ;;;
         ret (<["database" := "connected"]> health_status))
        (λ e, ret (<["database" := "error"]>
                     (<["status" := "degraded"]> health_status)))
  | None => ret (<["status" := "unhealthy"]> health_status)
  end.

Definition get_expenses_for_date (db : option ExpenseDatabase) (sc : script)
    (expense_date : date) : M (list dict) :=
  match db with
  | None => no_database
  | Some self =>
      try_except
        (let* expenses_for_date := fetch_expenses_for_date self sc expense_date in
         ret expenses_for_date)
        (λ e, raise (HTTPException 500
           "An internal server error occurred while fetching expenses."))
  end.

(** The [for expense in expenses] loop. *)
Fixpoint insert_each (self : ExpenseDatabase) (scs : nat → script)
    (expense_date : date) (expenses : list Expense.t) (inserted_ids : list Z)
    : M (list Z) :=
  match expenses with
  | [] => ret inserted_ids
  | expense :: rest =>
      let* expense_id :=
        insert_expense self (scs 0%nat) expense_date (Expense.category expense)
          (Expense.notes expense) (Expense.amount expense) in
      insert_each self (λ i, scs (S i)) expense_date rest
        (inserted_ids ++ [expense_id])%list
  end.

Definition add_expenses_for_date (db : option ExpenseDatabase)
    (scs : nat → script) (expense_date : date) (expenses : list Expense.t)
    : M ExpenseCreateResponse :=
  match db with
  | None => no_database
  | Some self =>
      try_except
        (let* inserted_ids := insert_each self scs expense_date expenses [] in
         ret {| created_message :=
                  "Successfully added " +:+ pretty (Z.of_nat (length expenses))
                  +:+ " expense(s) for " +:+ str_date expense_date +:+ ".";
                inserted_count := Z.of_nat (length inserted_ids);
                inserted_ids := inserted_ids |})
        (λ e, raise (HTTPException 500
           "An internal server error occurred while adding expenses."))
  end.

Definition delete_expenses_for_date_handler (db : option ExpenseDatabase)
    (sc : script) (expense_date : date) : M ExpenseDeleteResponse :=
  match db with
  | None => no_database
  | Some self =>
      try_except
        (let* deleted_count := delete_expenses_for_date self sc expense_date in
         ret {| deleted_message :=
                  "Successfully deleted " +:+ pretty deleted_count
                  +:+ " expense(s) for " +:+ str_date expense_date +:+ ".";
                deleted_count := deleted_count |})
        (λ e, raise (HTTPException 500
           "An internal server error occurred while deleting expenses."))
  end.

Definition get_expense_summary (db : option ExpenseDatabase) (sc : script)
    (start_date end_date : date) : M (list dict) :=
  match db with
  | None => no_database
  | Some self =>
      if date_gt start_date end_date then
        raise (HTTPException 400 "The start_date cannot be after the end_date.")
      else
        try_except
          (let* summary := fetch_expense_summary self sc start_date end_date in
           ret summary)
          (λ e, raise (HTTPException 500
             "An internal server error occurred while fetching the summary."))
  end.

(** ** [server.py]: the routes

    What the framework does around a handler: the request body is validated
    against the declared parameter type before the handler is called, and
    the handler's return value is passed through the declared
    [response_model] before it is sent. *)

Inductive response (A : Type) :=
  | OK (body : A)                               (* 200 *)
  | Error (status_code : Z) (detail : string)   (* a raised HTTPException *)
  | Unprocessable                               (* 422, request validation *)
  | ServerError.                                (* 500, anything unhandled *)
Arguments OK {A} body.
Arguments Error {A} status_code detail.
Arguments Unprocessable {A}.
Arguments ServerError {A}.

Definition status {A} (r : response A) : Z :=
  match r with
  | OK _ => 200
  | Error c _ => c
  | Unprocessable => 422
  | ServerError => 500
  end.

Definition client_error {A} (r : response A) : bool :=
  (400 <=? status r) && (status r <? 500).

Definition respond {A B} (response_model : A → option B) (m : M A)
    : world → response B * world :=
  λ w, match m w with
       | (Return a, w') =>
           match response_model a with
           | Some b => (OK b, w')
           | None => (ServerError, w')
           end
       | (Raise (HTTPException c d), w') => (Error c d, w')
       | (Raise _, w') => (ServerError, w')
       end.

(** [GET /health]. *)
Definition route_health (db : option ExpenseDatabase) (sc : script)
    (today : date) : world → response (gmap string string) * world :=
  respond Some (health_check db sc today).

(** [GET /expenses/{expense_date}], [response_model=List[Expense]]. *)
Definition route_get_expenses (db : option ExpenseDatabase) (sc : script)
    (expense_date : date) : world → response (list dict) * world :=
  respond (mapM (λ o, Expense.dump <$> Expense.validate (Expense.of_dict o)))
          (get_expenses_for_date db sc expense_date).

(** [POST /expenses/{expense_date}], body [List[Expense]],
    [response_model=ExpenseCreateResponse]. *)
Definition route_add_expenses (db : option ExpenseDatabase)
    (scs : nat → script) (expense_date : date) (body : list Expense.raw)
    : world → response ExpenseCreateResponse * world :=
  match mapM Expense.validate body with
  | None => λ w, (Unprocessable, w)
  | Some expenses =>
      respond Some (add_expenses_for_date db scs expense_date expenses)
  end.

(** [DELETE /expenses/{expense_date}],
    [response_model=ExpenseDeleteResponse]. *)
Definition route_delete_expenses (db : option ExpenseDatabase) (sc : script)
    (expense_date : date) : world → response ExpenseDeleteResponse * world :=
  respond Some (delete_expenses_for_date_handler db sc expense_date).

(** [GET /summary], [response_model=List[ExpenseSummary]]. *)
Definition route_summary (db : option ExpenseDatabase) (sc : script)
    (start_date end_date : date) : world → response (list dict) * world :=
  respond (mapM (λ o, ExpenseSummary.dump <$> ExpenseSummary.of_dict o))
          (get_expense_summary db sc start_date end_date).

(** ** Notions used in the statements *)

(** No cursor is left open and no connection is left connected. *)
Definition released (w : world) : Prop :=
  cursor w ≠ Some true ∧ conn w ≠ Some true.

(** The driver calls the [finally] clause makes in world [w] when each of
    them returns, latest first. *)
Definition closing_calls (w : world) : list call :=
  (if has_conn w && is_connected w then [CConnClose] else []) ++
  (if has_cursor w then [CCursorClose] else []).

(** The driver raises [e] while the statement of a mutating operation is in
    flight: the connection and the cursor were obtained, and then either
    [execute] raises, or [execute] passes and [commit] raises. [lost] tells
    whether the link is gone after the failing call. *)
Definition raises_in_flight (sc : script) (e : exn) (lost : bool) : Prop :=
  on_connect sc = Pass ∧ on_cursor sc = Pass ∧
  (on_execute sc = Fail e lost
   ∨ (on_execute sc = Pass ∧ lost_after_body sc = false
      ∧ on_commit sc = Fail e lost)).

(** The two calls that release a resource. *)
Definition close_call (c : call) : Prop := c = CCursorClose ∨ c = CConnClose.

(** What holds of a mutating operation [op] whose part before the [finally]
    clause is [guarded], started in [w], when the driver error [e] is raised
    in flight and [lost] tells whether the link went with it.
    Before the [finally] clause no releasing call is made. While the link
    is up, [rollback()] is the last call made before the clause, and the
    only [rollback()]; if it returns, the transaction is gone and [e] is
    what the [except] clause raises; if it raises, its own error is raised
    in place of [e]. When the link is lost no [rollback()] is called and
    [e] is raised.
    The calls of the [finally] clause come after all of these; there is at
    least one and they are releasing calls only; if they return, what was
    raised before them is what the operation raises. *)
Definition rollback_then_release {A} (sc : script) (op guarded : M A)
    (w : world) (e : exn) (lost : bool) : Prop :=
  let before := guarded w in
  let after := op w in
  (∃ pre, calls (snd before)
          = ((if lost then [] else [CRollback]) ++ pre ++ calls w)%list
          ∧ Forall (λ c, c ≠ CRollback ∧ ¬ close_call c) pre)
  ∧ (lost = false → on_rollback sc = Pass → txn (snd before) = None)
  ∧ fst before = (if lost then Raise e
                  else match on_rollback sc with
                       | Pass => Raise e
                       | Fail e' _ => Raise e'
                       end)
  ∧ (∃ rel, calls (snd after) = (rel ++ calls (snd before))%list
            ∧ rel ≠ [] ∧ Forall close_call rel)
  ∧ (on_cursor_close sc = Pass → on_conn_close sc = Pass →
     fst after = fst before).

(** The cursor and the connection an operation has obtained when the
    [finally] clause is entered, [guarded] being what runs before the
    clause: a connection when [connect] passed, an open cursor when
    [cursor()] passed too. *)
Definition obtained_at_entry {A} (sc : script) (guarded : M A) (w : world)
    : Prop :=
  (on_connect sc = Pass → is_Some (conn (snd (guarded w))))
  ∧ (on_connect sc = Pass → on_cursor sc = Pass →
     cursor (snd (guarded w)) = Some true).

(** The commit of a mutating operation is reached: [connect], [cursor()]
    and [execute] pass and [is_connected()] then answers True. *)
Definition commit_reached (sc : script) : bool :=
  match on_connect sc, on_cursor sc, on_execute sc with
  | Pass, Pass, Pass => negb (lost_after_body sc)
  | _, _, _ => false
  end.

(** The three values [health_status] can have when [health_check] returns
    it, built by the same key assignments as in the source. *)
Definition HEALTHY : gmap string string :=
  <["database" := "connected"]>
    (<["status" := "healthy"]> (<["database" := "disconnected"]> ∅)).

Definition DEGRADED : gmap string string :=
  <["database" := "error"]>
    (<["status" := "degraded"]>
       (<["status" := "healthy"]> (<["database" := "disconnected"]> ∅))).

Definition UNHEALTHY : gmap string string :=
  <["status" := "unhealthy"]>
    (<["status" := "healthy"]> (<["database" := "disconnected"]> ∅)).

(** Concrete inputs for the examples: the handle built with no argument
    and no environment variable set, and the days of August 2024. *)
Definition default_db : ExpenseDatabase :=
  ExpenseDatabase_init ∅ None None None None.

(** An empty table on a server that has handed out no id yet. *)
Definition fresh : world := World [] 1 None None None [] 0 0 [].

Definition aug (d : Z) : date := Date 2024 8 d.

(** What pydantic asks of one submitted item. *)
Definition acceptable (r : Expense.raw) : Prop :=
  is_Some (Expense.raw_category r) ∧ is_Some (Expense.raw_notes r)
  ∧ ∃ a, Expense.raw_amount r = Some a ∧ (0 < a)%Q.

(** Every driver call of a mutating operation passes and the link stays
    up. *)
Definition goes_through (sc : script) : Prop :=
  on_connect sc = Pass ∧ on_cursor sc = Pass ∧ on_execute sc = Pass
  ∧ lost_after_body sc = false ∧ on_commit sc = Pass
  ∧ on_cursor_close sc = Pass ∧ on_conn_close sc = Pass.

(** Every driver call of a reading operation passes. *)
Definition reads (sc : script) : Prop :=
  on_connect sc = Pass ∧ on_cursor sc = Pass ∧ on_execute sc = Pass
  ∧ on_fetchall sc = Pass
  ∧ on_cursor_close sc = Pass ∧ on_conn_close sc = Pass.

(** [n] consecutive ids starting at [first]. *)
Fixpoint ids_from (first : Z) (n : nat) : list Z :=
  match n with
  | O => []
  | S k => first :: ids_from (first + 1) k
  end.

(** The rows a batch becomes when its items get consecutive ids. *)
Fixpoint stored_as (first : Z) (d : date) (expenses : list Expense.t)
    : list row :=
  match expenses with
  | [] => []
  | e :: rest =>
      Row first d (Expense.category e) (Expense.notes e) (Expense.amount e)
      :: stored_as (first + 1) d rest
  end.

(** The object sent for a stored row: the fields of [Expense]. *)
Definition public (r : row) : dict :=
  Expense.dump (Expense.Make (row_category r) (row_notes r) (row_amount r)).

(** The [total_amount] read out of a summary row. *)
Definition total_of (o : dict) : Q :=
  default (0 # 1)%Q (o !! "total_amount" ≫= as_float).

(** The row a summary has for category [c]. *)
Definition summary_row (c : string) (total : Q) : dict :=
  <["category" := VStr c]> (<["total_amount" := VNum total]> ∅).

(** The rows of the table that fall in a range. *)
Definition in_range (s e : date) (rows : list row) : list row :=
  filter (λ r, between s e r = true) rows.

(** The calls of a mutating operation in which every driver call passes,
    latest first. *)
Definition mutation_calls (self : ExpenseDatabase) (query : string)
    (params : list value) : list call :=
  [CConnClose; CCursorClose; CCommit; CExecute query params; CCursor;
   CConnect self].

(** The calls of a reading operation in which every driver call passes,
    latest first. *)
Definition read_calls (self : ExpenseDatabase) (query : string)
    (params : list value) : list call :=
  [CConnClose; CCursorClose; CFetchall; CExecute query params; CCursor;
   CConnect self].

(** The fixed details of the 500 answers. *)
Definition DETAIL_FETCH : string :=
  "An internal server error occurred while fetching expenses.".
Definition DETAIL_ADD : string :=
  "An internal server error occurred while adding expenses.".
Definition DETAIL_DELETE : string :=
  "An internal server error occurred while deleting expenses.".
Definition DETAIL_SUMMARY : string :=
  "An internal server error occurred while fetching the summary.".

(** The sum of a list of amounts. *)
Definition sumQ (l : list Q) : Q := foldr Qplus (0 # 1)%Q l.


(** * Properties *)

(** ** The statements *)

Lemma run_select (d : date) (w : world) :
  run_statement SELECT_FOR_DATE [VDate d] w
  = Some (set_fetched (row_dict <$> for_date d (view w)) w).
Proof. reflexivity. Qed.

Lemma run_delete (d : date) (w : world) :
  run_statement DELETE_FOR_DATE [VDate d] w
  = Some (set_rowcount (Z.of_nat (length (for_date d (view w))))
            (set_txn (Some (not_for_date d (view w))) w)).
Proof. reflexivity. Qed.

Lemma run_insert (d : date) (c n : string) (a : Q) (w : world) :
  run_statement INSERT_EXPENSE [VDate d; VStr c; VStr n; VNum a] w
  = Some (set_lastrowid (auto_increment w)
            (set_rowcount 1
               (set_auto_increment (auto_increment w + 1)
                  (set_txn (Some (view w ++ [Row (auto_increment w) d c n a])%list) w)))).
Proof. reflexivity. Qed.

Lemma run_summary (s e : date) (w : world) :
  run_statement SELECT_SUMMARY [VDate s; VDate e] w
  = Some (set_fetched (summary_of s e (view w)) w).
Proof. reflexivity. Qed.

(** ** Release of cursor and connection *)

(** The [finally] clause when both close calls return. *)
Lemma finally_spec (sc : script) (w : world) :
  on_cursor_close sc = Pass → on_conn_close sc = Pass →
  ∃ w', _get_db_cursor_finally sc w = (Return tt, w')
        ∧ released w'
        ∧ table w' = table w
        ∧ auto_increment w' = auto_increment w
        ∧ calls w' = (closing_calls w ++ calls w)%list
        ∧ (txn w = None → txn w' = None).
Proof.
  unfold _get_db_cursor_finally. intros -> ->.
  destruct w as [t ai tx [[|]|] [cu|] f rc lr cs]; eexists;
    (split; [reflexivity|]); unfold released, closing_calls; cbn;
    repeat split; try done.
Qed.

(** The [finally] clause whatever the close calls do: it makes releasing
    calls only, at least one when there is a cursor, and does not touch
    what is stored. *)
Lemma finally_any (sc : script) (w : world) :
  ∃ rel,
    calls (snd (_get_db_cursor_finally sc w)) = (rel ++ calls w)%list
    ∧ Forall close_call rel
    ∧ (has_cursor w = true → rel ≠ [])
    ∧ table (snd (_get_db_cursor_finally sc w)) = table w
    ∧ auto_increment (snd (_get_db_cursor_finally sc w)) = auto_increment w.
Proof.
  unfold _get_db_cursor_finally.
  destruct (on_cursor_close sc) as [|e1 []], (on_conn_close sc) as [|e2 []],
    w as [t ai tx [[|]|] [cu|] f rc lr cs]; cbn.
  all: let finish :=
         (split; [reflexivity|]);
         split_and!; try done; repeat constructor; unfold close_call; auto in
       first
         [ solve [exists [CConnClose; CCursorClose]; finish]
         | solve [exists [CCursorClose]; finish]
         | solve [exists [CConnClose]; finish]
         | solve [exists []; finish] ].
Qed.

Lemma get_db_cursor_split {A} (self : ExpenseDatabase) (sc : script)
    (commit : bool) (body : M A) (w : world) :
  _get_db_cursor self sc commit body w
  = (match fst (_get_db_cursor_finally sc
                   (snd (_get_db_cursor_guarded self sc commit body w))) with
     | Return _ => fst (_get_db_cursor_guarded self sc commit body w)
     | Raise e => Raise e
     end,
     snd (_get_db_cursor_finally sc
            (snd (_get_db_cursor_guarded self sc commit body w)))).
Proof.
  unfold _get_db_cursor, try_finally.
  destruct (_get_db_cursor_guarded self sc commit body w) as [r w1]; cbn [snd fst].
  by destruct (_get_db_cursor_finally sc w1) as [[[]|e] w2].
Qed.

(** What the [finally] clause adds to what was done before it: releasing
    calls only, nothing to what is stored; what raised before it still
    raises and what returns had returned before it; and when the close
    calls return, the outcome is the one on entry to the clause. *)
Lemma after_finally {A} (self : ExpenseDatabase) (sc : script)
    (commit : bool) (body : M A) (w : world) :
  (∃ rel, calls (snd (_get_db_cursor self sc commit body w))
          = (rel ++ calls (snd (_get_db_cursor_guarded self sc commit body w)))%list
          ∧ Forall close_call rel
          ∧ (has_cursor (snd (_get_db_cursor_guarded self sc commit body w))
             = true → rel ≠ []))
  ∧ table (snd (_get_db_cursor self sc commit body w))
    = table (snd (_get_db_cursor_guarded self sc commit body w))
  ∧ auto_increment (snd (_get_db_cursor self sc commit body w))
    = auto_increment (snd (_get_db_cursor_guarded self sc commit body w))
  ∧ ((∃ e, fst (_get_db_cursor_guarded self sc commit body w) = Raise e) →
     ∃ e, fst (_get_db_cursor self sc commit body w) = Raise e)
  ∧ (∀ x, fst (_get_db_cursor self sc commit body w) = Return x →
          fst (_get_db_cursor_guarded self sc commit body w) = Return x)
  ∧ (on_cursor_close sc = Pass → on_conn_close sc = Pass →
     fst (_get_db_cursor self sc commit body w)
     = fst (_get_db_cursor_guarded self sc commit body w)
     ∧ calls (snd (_get_db_cursor self sc commit body w))
       = (closing_calls (snd (_get_db_cursor_guarded self sc commit body w))
          ++ calls (snd (_get_db_cursor_guarded self sc commit body w)))%list
     ∧ released (snd (_get_db_cursor self sc commit body w))).
Proof.
  rewrite get_db_cursor_split. cbn [fst snd].
  destruct (finally_any sc (snd (_get_db_cursor_guarded self sc commit body w)))
    as (rel & Hc & Hrel & Hne & Ht & Ha).
  split_and!; [by exists rel|exact Ht|exact Ha|..].
  - intros [e He]. rewrite He.
    destruct (fst (_get_db_cursor_finally sc _)); eauto.
  - intros x.
    destruct (fst (_get_db_cursor_finally sc _)); [done|discriminate].
  - intros Hcc Hcl.
    destruct (finally_spec sc (snd (_get_db_cursor_guarded self sc commit body w))
                Hcc Hcl) as (w' & Hf & Hr & _ & _ & Hcalls & _).
    rewrite Hf. cbn [fst snd]. done.
Qed.

(** Case analysis on what the driver does before the [finally] clause,
    following the order in which the context manager consults the script:
    a later call is split only where the earlier ones pass. A call passes,
    or raises one of the three kinds of exception with the link kept or
    lost; [r] is run where a driver error is raised with the link kept,
    which is where a mutating operation calls [rollback()]. *)
Ltac open_script sc w :=
  destruct sc as [oc ocu oe ofe lab ocm orb occ ocl];
  destruct w as [t ai tx co cu f rc lr cs];
  cbv [on_connect on_cursor on_execute on_fetchall lost_after_body on_commit
       on_rollback on_cursor_close on_conn_close].

Ltac raise_cases e lost r :=
  destruct e as [?|?|? ?], lost; [|r|..].

Ltac call_cases o r k :=
  let e := fresh "e" in
  let lost := fresh "lost" in
  destruct o as [|e lost]; [k|raise_cases e lost r].

Ltac rollback_cases orb := destruct orb as [|? []].

Ltac mutation_cases oc ocu oe lab ocm orb :=
  call_cases oc ltac:(rollback_cases orb)
    ltac:(call_cases ocu ltac:(rollback_cases orb)
            ltac:(call_cases oe ltac:(rollback_cases orb)
                    ltac:(destruct lab;
                          [|call_cases ocm ltac:(rollback_cases orb) idtac]))).

Ltac read_cases oc ocu oe ofe lab :=
  call_cases oc idtac
    ltac:(call_cases ocu idtac
            ltac:(call_cases oe idtac
                    ltac:(call_cases ofe idtac ltac:(destruct lab)))).

Ltac obtained :=
  split; intros;
  lazymatch goal with
  | H : Fail _ _ = Pass |- _ => discriminate H
  | |- _ => vm_compute; eauto
  end.

Lemma fetch_obtained (self : ExpenseDatabase) (sc : script) (d : date)
    (w : world) :
  obtained_at_entry sc
    (_get_db_cursor_guarded self sc false (fetch_expenses_for_date_body sc d)) w.
Proof.
  unfold obtained_at_entry. open_script sc w. read_cases oc ocu oe ofe lab; obtained.
Qed.

Lemma summary_obtained (self : ExpenseDatabase) (sc : script) (s e : date)
    (w : world) :
  obtained_at_entry sc
    (_get_db_cursor_guarded self sc false (fetch_expense_summary_body sc s e)) w.
Proof.
  unfold obtained_at_entry. open_script sc w. read_cases oc ocu oe ofe lab; obtained.
Qed.

Lemma delete_obtained (self : ExpenseDatabase) (sc : script) (d : date)
    (w : world) :
  obtained_at_entry sc
    (_get_db_cursor_guarded self sc true (delete_expenses_for_date_body sc d)) w.
Proof.
  unfold obtained_at_entry. open_script sc w. mutation_cases oc ocu oe lab ocm orb; obtained.
Qed.

Lemma insert_obtained (self : ExpenseDatabase) (sc : script) (d : date)
    (c n : string) (a : Q) (w : world) :
  obtained_at_entry sc
    (_get_db_cursor_guarded self sc true (insert_expense_body sc d c n a)) w.
Proof.
  unfold obtained_at_entry. open_script sc w. mutation_cases oc ocu oe lab ocm orb; obtained.
Qed.

(** C7, as stated, fails on two exit paths. When an [execute] raises and
    the link is lost with it, [conn.close()] is never called. When every
    call of a fetch passes but [cursor.close()] raises, [conn.close()] is
    skipped: the connection is still connected when the error of
    [cursor.close()] reaches the caller. *)
Lemma connection_not_always_closed :
  calls (snd (fetch_expenses_for_date default_db
                (Script Pass Pass (Fail (MySQLError "Lost connection") true)
                        Pass false Pass Pass Pass Pass)
                (aug 1) fresh))
  = [CCursorClose; CExecute SELECT_FOR_DATE [VDate (aug 1)]; CCursor;
     CConnect default_db]
  ∧ fst (fetch_expenses_for_date default_db
           (Script Pass Pass Pass Pass false Pass Pass
                   (Fail (MySQLError "Unread result found") false) Pass)
           (aug 1) fresh)
    = Raise (MySQLError "Unread result found")
  ∧ calls (snd (fetch_expenses_for_date default_db
                  (Script Pass Pass Pass Pass false Pass Pass
                          (Fail (MySQLError "Unread result found") false) Pass)
                  (aug 1) fresh))
    = [CCursorClose; CFetchall; CExecute SELECT_FOR_DATE [VDate (aug 1)];
       CCursor; CConnect default_db]
  ∧ conn (snd (fetch_expenses_for_date default_db
                 (Script Pass Pass Pass Pass false Pass Pass
                         (Fail (MySQLError "Unread result found") false) Pass)
                 (aug 1) fresh))
    = Some true.
Proof. split_and!; vm_compute; reflexivity. Qed.

(** C7, amended. On every exit path of what precedes the [finally] clause
    (normal return, an error of the driver or any other exception, a
    raising rollback, a lost link), when the release calls themselves
    return: the operation returns or raises what it had on entry to the
    clause; [cursor.close()] is called exactly when a cursor was obtained,
    and [conn.close()] after it exactly when a connection was obtained and
    is still connected (a connection that is no longer connected is not
    closed); afterwards no cursor is open and no connection is connected.
    This holds for any body run under the context manager; for the four
    operations the cursor and the connection present on entry are those of
    the calls that passed. *)
Theorem cursor_and_connection_released_when_close_returns
    (self : ExpenseDatabase) (sc : script) (w : world) :
  on_cursor_close sc = Pass → on_conn_close sc = Pass →
  (∀ (A : Type) (commit : bool) (body : M A),
     let before := _get_db_cursor_guarded self sc commit body w in
     let after := _get_db_cursor self sc commit body w in
     fst after = fst before
     ∧ calls (snd after)
       = (closing_calls (snd before) ++ calls (snd before))%list
     ∧ closing_calls (snd before)
       = ((if bool_decide (conn (snd before) = Some true)
           then [CConnClose] else [])
          ++ (if bool_decide (is_Some (cursor (snd before)))
              then [CCursorClose] else []))%list
     ∧ released (snd after))
  ∧ (∀ d, obtained_at_entry sc
            (_get_db_cursor_guarded self sc false
               (fetch_expenses_for_date_body sc d)) w)
  ∧ (∀ d, obtained_at_entry sc
            (_get_db_cursor_guarded self sc true
               (delete_expenses_for_date_body sc d)) w)
  ∧ (∀ d c n a, obtained_at_entry sc
                  (_get_db_cursor_guarded self sc true
                     (insert_expense_body sc d c n a)) w)
  ∧ (∀ s e, obtained_at_entry sc
              (_get_db_cursor_guarded self sc false
                 (fetch_expense_summary_body sc s e)) w).
Proof.
  intros Hcc Hcl. split_and!.
  - intros A commit body before after. subst before after.
    destruct (after_finally self sc commit body w)
      as (_ & _ & _ & _ & _ & Hpass).
    destruct (Hpass Hcc Hcl) as (Hr & Hcalls & Hrel).
    split_and!; [exact Hr|exact Hcalls| |exact Hrel].
    unfold closing_calls, has_conn, has_cursor, is_connected.
    by destruct (conn (snd _)) as [[|]|], (cursor (snd _)) as [[|]|].
  - intros. apply fetch_obtained.
  - intros. apply delete_obtained.
  - intros. apply insert_obtained.
  - intros. apply summary_obtained.
Qed.

Lemma cursor_and_connection_released_when_close_returns_witness :
  calls (snd (insert_expense default_db calm (aug 1) "Food" "Lunch" (51 # 2)
                fresh))
  = (closing_calls
       (snd (_get_db_cursor_guarded default_db calm true
               (insert_expense_body calm (aug 1) "Food" "Lunch" (51 # 2))
               fresh))
     ++ calls (snd (_get_db_cursor_guarded default_db calm true
                      (insert_expense_body calm (aug 1) "Food" "Lunch" (51 # 2))
                      fresh)))%list
  ∧ released (snd (insert_expense default_db calm (aug 1) "Food" "Lunch"
                     (51 # 2) fresh)).
Proof.
  destruct (proj1 (cursor_and_connection_released_when_close_returns
                     default_db calm fresh eq_refl eq_refl)
              Z true (insert_expense_body calm (aug 1) "Food" "Lunch" (51 # 2)%Q))
    as (_ & Hcalls & _ & Hrel).
  exact (conj Hcalls Hrel).
Defined.

(** ** Driver errors during a mutating statement *)

(** C6, as stated, fails in two ways. When [execute] of an insert raises a
    driver error and the link is lost with it, [is_connected()] answers
    False and no [rollback()] is called: the cursor is closed and the
    error raised, with nothing rolled back by the code. When the link is
    up and [rollback()] itself raises, the error that reaches the caller is
    the one of [rollback()], not the triggering one. *)
Lemma driver_error_not_always_rolled_back_nor_reraised :
  raises_in_flight
    (Script Pass Pass (Fail (MySQLError "Lost connection") true)
            Pass false Pass Pass Pass Pass)
    (MySQLError "Lost connection") true
  ∧ calls (snd (insert_expense default_db
                  (Script Pass Pass (Fail (MySQLError "Lost connection") true)
                          Pass false Pass Pass Pass Pass)
                  (aug 1) "Food" "Lunch" (51 # 2) fresh))
    = [CCursorClose;
       CExecute INSERT_EXPENSE
         [VDate (aug 1); VStr "Food"; VStr "Lunch"; VNum (51 # 2)];
       CCursor; CConnect default_db]
  ∧ raises_in_flight
      (Script Pass Pass (Fail (MySQLError "Deadlock found") false)
              Pass false Pass (Fail (MySQLError "Server has gone away") true)
              Pass Pass)
      (MySQLError "Deadlock found") false
  ∧ fst (insert_expense default_db
           (Script Pass Pass (Fail (MySQLError "Deadlock found") false)
                   Pass false Pass (Fail (MySQLError "Server has gone away") true)
                   Pass Pass)
           (aug 1) "Food" "Lunch" (51 # 2) fresh)
    = Raise (MySQLError "Server has gone away").
Proof.
  split_and!.
  - split; [reflexivity|]. split; [reflexivity|]. left. reflexivity.
  - vm_compute. reflexivity.
  - split; [reflexivity|]. split; [reflexivity|]. left. reflexivity.
  - vm_compute. reflexivity.
Qed.

(** Closes [Forall (λ c, c ≠ CRollback ∧ ¬ close_call c) l] for a list of
    calls [l] that is written out. *)
Ltac no_rollback_no_close :=
  repeat (apply Forall_cons; split;
          [split; [discriminate|intros [?|?]; discriminate]|]);
  apply Forall_nil_2.

(** The conjuncts of [rollback_then_release] at a script of which every
    field consulted before the [finally] clause is determined; [pre] is
    the list of the calls made before [rollback()]. *)
Ltac rollback_then_release_at self sc commit body w pre :=
  let rel := fresh "rel" in
  let Hcalls := fresh "Hcalls" in
  let Hrel := fresh "Hrel" in
  let Hne := fresh "Hne" in
  let Hpass := fresh "Hpass" in
  let H1 := fresh "H" in
  let H2 := fresh "H" in
  unfold rollback_then_release; cbv zeta;
  destruct (after_finally self sc commit body w)
    as ((rel & Hcalls & Hrel & Hne) & _ & _ & _ & _ & Hpass);
  split_and!;
  [ exists pre; split; [vm_compute; reflexivity|no_rollback_no_close]
  | intros H1 H2;
    first [discriminate H1 | discriminate H2 | vm_compute; reflexivity]
  | vm_compute; reflexivity
  | exists rel; split_and!;
    [exact Hcalls|apply Hne; vm_compute; reflexivity|exact Hrel]
  | intros H1 H2; exact (proj1 (Hpass H1 H2)) ].

(** C6, amended. When [execute] or [commit] of an insert or of a delete
    raises a driver error: no releasing call is made before the [finally]
    clause. If the connection still answers connected, [rollback()] is
    called, once, as the last call before the clause; if it returns, the
    transaction is gone and the triggering error is raised again; if it
    raises, its own error is raised instead. If the connection no longer
    answers connected, no [rollback()] is called and the triggering error
    is raised again. The releasing calls come after all of this, and when
    they return the caller gets what was raised before them. *)
Theorem driver_error_rolled_back_while_connected
    (self : ExpenseDatabase) (sc : script) (w : world) (msg : string)
    (lost : bool) :
  raises_in_flight sc (MySQLError msg) lost →
  (∀ d c n a,
     rollback_then_release sc
       (insert_expense self sc d c n a)
       (_get_db_cursor_guarded self sc true (insert_expense_body sc d c n a))
       w (MySQLError msg) lost)
  ∧ (∀ d,
       rollback_then_release sc
         (delete_expenses_for_date self sc d)
         (_get_db_cursor_guarded self sc true
            (delete_expenses_for_date_body sc d))
         w (MySQLError msg) lost).
Proof.
  unfold raises_in_flight. open_script sc w.
  intros (-> & -> & [-> | (-> & -> & ->)]);
    destruct lost; rollback_cases orb; (split; [intros d c n a|intros d]);
    unfold insert_expense, delete_expenses_for_date;
    lazymatch goal with
    | |- rollback_then_release ?sc (_get_db_cursor ?self _ ?commit ?body) _
           ?w _ _ =>
        first
          [ rollback_then_release_at self sc commit body w
              [CExecute INSERT_EXPENSE [VDate d; VStr c; VStr n; VNum a];
               CCursor; CConnect self]
          | rollback_then_release_at self sc commit body w
              [CCommit;
               CExecute INSERT_EXPENSE [VDate d; VStr c; VStr n; VNum a];
               CCursor; CConnect self]
          | rollback_then_release_at self sc commit body w
              [CExecute DELETE_FOR_DATE [VDate d]; CCursor; CConnect self]
          | rollback_then_release_at self sc commit body w
              [CCommit; CExecute DELETE_FOR_DATE [VDate d]; CCursor;
               CConnect self] ]
    end.
Qed.

Lemma driver_error_rolled_back_while_connected_witness :
  raises_in_flight
    (Script Pass Pass (Fail (MySQLError "Deadlock found") false)
            Pass false Pass Pass Pass Pass)
    (MySQLError "Deadlock found") false
  ∧ rollback_then_release
      (Script Pass Pass (Fail (MySQLError "Deadlock found") false)
              Pass false Pass Pass Pass Pass)
      (insert_expense default_db
         (Script Pass Pass (Fail (MySQLError "Deadlock found") false)
                 Pass false Pass Pass Pass Pass)
         (aug 1) "Food" "Lunch" (51 # 2))
      (_get_db_cursor_guarded default_db
         (Script Pass Pass (Fail (MySQLError "Deadlock found") false)
                 Pass false Pass Pass Pass Pass)
         true
         (insert_expense_body
            (Script Pass Pass (Fail (MySQLError "Deadlock found") false)
                    Pass false Pass Pass Pass Pass)
            (aug 1) "Food" "Lunch" (51 # 2)))
      fresh (MySQLError "Deadlock found") false.
Proof.
  assert (H : raises_in_flight
    (Script Pass Pass (Fail (MySQLError "Deadlock found") false)
            Pass false Pass Pass Pass Pass)
    (MySQLError "Deadlock found") false).
  { split; [reflexivity|]. split; [reflexivity|]. left. reflexivity. }
  split; [exact H|].
  exact (proj1 (driver_error_rolled_back_while_connected default_db _ fresh
                  "Deadlock found" false H)
           (aug 1) "Food" "Lunch" (51 # 2)%Q).
Defined.

(** ** The health probe *)

Lemma health_check_cases (db : option ExpenseDatabase) (sc : script)
    (today : date) (w : world) :
  ∃ w', health_check db sc today w
        = (Return match db with
                  | None => UNHEALTHY
                  | Some self =>
                      match fst (fetch_expenses_for_date self sc today w) with
                      | Return _ => HEALTHY
                      | Raise _ => DEGRADED
                      end
                  end, w').
Proof.
  destruct db as [self|]; [|by eexists].
  unfold health_check, try_except, bind.
  destruct (fetch_expenses_for_date self sc today w) as [[rows|e] w1];
    by eexists.
Qed.

Lemma health_fields :
  (HEALTHY !! "status" = Some "healthy"
   ∧ HEALTHY !! "database" = Some "connected")
  ∧ (DEGRADED !! "status" = Some "degraded"
     ∧ DEGRADED !! "database" = Some "error")
  ∧ (UNHEALTHY !! "status" = Some "unhealthy"
     ∧ UNHEALTHY !! "database" = Some "disconnected").
Proof. split_and!; vm_compute; reflexivity. Qed.

(** C9. The probe answers [unhealthy] exactly when there is no storage
    handle, [degraded] exactly when there is one and the probe read raises,
    [healthy] exactly when there is one and the probe read returns; the
    [database] field is [disconnected], [error], [connected]
    respectively. *)
Theorem health_check_three_valued (db : option ExpenseDatabase) (sc : script)
    (today : date) (w : world) :
  ∃ hs w',
    route_health db sc today w = (OK hs, w')
    ∧ (hs !! "status" = Some "unhealthy" ↔ db = None)
    ∧ (hs !! "status" = Some "degraded"
       ↔ ∃ self e, db = Some self
           ∧ fst (fetch_expenses_for_date self sc today w) = Raise e)
    ∧ (hs !! "status" = Some "healthy"
       ↔ ∃ self rows, db = Some self
           ∧ fst (fetch_expenses_for_date self sc today w) = Return rows)
    ∧ (hs !! "status" = Some "unhealthy"
       → hs !! "database" = Some "disconnected")
    ∧ (hs !! "status" = Some "degraded" → hs !! "database" = Some "error")
    ∧ (hs !! "status" = Some "healthy" → hs !! "database" = Some "connected").
Proof.
  unfold route_health, respond.
  destruct (health_check_cases db sc today w) as (w' & ->).
  destruct health_fields as ((Hh & Hhd) & (Hd & Hdd) & (Hu & Hud)).
  eexists _, w'; split; [reflexivity|].
  destruct db as [self|];
    [destruct (fetch_expenses_for_date self sc today w)
       as [[rows|e] w1] eqn:Hp|];
    cbn [fst]; rewrite ?Hh, ?Hhd, ?Hd, ?Hdd, ?Hu, ?Hud; split_and!;
    try split; try congruence;
    try (intros (? & ? & [= <-] & Hq); rewrite Hp in Hq; discriminate);
    try (intros (? & ? & ? & ?); congruence);
    try (intros _; eexists _, _; split; [reflexivity|by rewrite Hp]).
Qed.

(** ** Summary: the order of the two gates *)

(** C5, as stated, fails: with no storage handle a reversed range is
    answered 503, which is not a client error. *)
Lemma reversed_range_without_database_is_503 :
  date_gt (aug 31) (aug 1) = true
  ∧ fst (route_summary None calm (aug 31) (aug 1) fresh)
    = Error 503 "Database connection is not available."
  ∧ client_error (fst (route_summary None calm (aug 31) (aug 1) fresh)) = false.
Proof. split_and!; vm_compute; reflexivity. Qed.

(** C5, amended. For a range with [start_date > end_date] the summary is
    rejected without any driver call and with the world untouched: with a
    storage handle by the client error 400, without one by 503. *)
Theorem reversed_range_rejected_before_storage
    (db : option ExpenseDatabase) (sc : script) (start_date end_date : date)
    (w : world) :
  date_gt start_date end_date = true →
  snd (route_summary db sc start_date end_date w) = w
  ∧ match db with
    | Some _ =>
        fst (route_summary db sc start_date end_date w)
        = Error 400 "The start_date cannot be after the end_date."
        ∧ client_error (fst (route_summary db sc start_date end_date w)) = true
    | None =>
        fst (route_summary db sc start_date end_date w)
        = Error 503 "Database connection is not available."
    end.
Proof.
  intros Hgt. unfold route_summary, respond, get_expense_summary.
  destruct db as [self|]; [rewrite Hgt|]; done.
Qed.

Lemma reversed_range_rejected_before_storage_witness :
  date_gt (aug 31) (aug 1) = true
  ∧ snd (route_summary (Some default_db) calm (aug 31) (aug 1) fresh) = fresh
  ∧ fst (route_summary (Some default_db) calm (aug 31) (aug 1) fresh)
    = Error 400 "The start_date cannot be after the end_date.".
Proof.
  split; [reflexivity|].
  destruct (reversed_range_rejected_before_storage
              (Some default_db) calm (aug 31) (aug 1) fresh eq_refl)
    as (Hw & Hr & _).
  exact (conj Hw Hr).
Defined.

(** ** Creating a batch *)

(** C10. With a storage handle, an empty batch is answered 200 with count 0
    and no ids; no insert is called and the world is untouched. *)
Theorem empty_batch_inserts_nothing (self : ExpenseDatabase)
    (scs : nat → script) (expense_date : date) (w : world) :
  route_add_expenses (Some self) scs expense_date [] w
  = (OK {| created_message :=
             "Successfully added 0 expense(s) for "
             +:+ str_date expense_date +:+ ".";
           inserted_count := 0;
           inserted_ids := [] |}, w).
Proof. reflexivity. Qed.

Lemma gt0_spec (a : Q) : gt0 a = true ↔ (0 < a)%Q.
Proof.
  unfold gt0. rewrite negb_true_iff, <- not_true_iff_false, Qle_bool_iff.
  split; [apply Qnot_le_lt | apply Qlt_not_le].
Qed.

Lemma validate_Some (r : Expense.raw) (e : Expense.t) :
  Expense.validate r = Some e
  ↔ Expense.raw_category r = Some (Expense.category e)
    ∧ Expense.raw_notes r = Some (Expense.notes e)
    ∧ Expense.raw_amount r = Some (Expense.amount e)
    ∧ (0 < Expense.amount e)%Q.
Proof.
  destruct r as [[c|] [n|] [a|]], e as [c' n' a']; cbn;
    try (split; [discriminate | intros (? & ? & ? & ?); discriminate]).
  destruct (gt0 a) eqn:Hgt.
  - apply gt0_spec in Hgt. split.
    + intros [= <- <- <-]. done.
    + intros ([= <-] & [= <-] & [= <-] & _). done.
  - split; [discriminate|].
    intros (_ & _ & [= <-] & Hpos). apply gt0_spec in Hpos. congruence.
Qed.

Lemma validate_is_Some (r : Expense.raw) :
  is_Some (Expense.validate r) ↔ acceptable r.
Proof.
  unfold acceptable. split.
  - intros [e (Hc & Hn & Ha & Hpos)%validate_Some].
    rewrite Hc, Hn. eauto.
  - intros ([c Hc] & [n Hn] & a & Ha & Hpos).
    exists (Expense.Make c n a). by apply validate_Some.
Qed.

Lemma nonpositive_amount_invalid (r : Expense.raw) (a : Q) :
  Expense.raw_amount r = Some a → (a <= 0)%Q → Expense.validate r = None.
Proof.
  intros Ha Hle. destruct (Expense.validate r) as [e|] eqn:He; [|done].
  apply validate_Some in He as (_ & _ & Ha' & Hpos).
  rewrite Ha in Ha'. injection Ha' as ->.
  by apply Qlt_not_le in Hpos.
Qed.

Lemma invalid_item_unprocessable (db : option ExpenseDatabase)
    (scs : nat → script) (expense_date : date) (body : list Expense.raw)
    (w : world) :
  Exists (λ r, Expense.validate r = None) body →
  route_add_expenses db scs expense_date body w = (Unprocessable, w).
Proof.
  intros H%mapM_None_2. unfold route_add_expenses. by rewrite H.
Qed.

(** C1. A batch in which some item has [amount <= 0] is answered 422
    whatever the storage handle and the driver would do: the handler is not
    entered, no driver call is made, and the world (the table with it) is
    what it was. *)
Theorem nonpositive_amount_rejects_batch (db : option ExpenseDatabase)
    (scs : nat → script) (expense_date : date) (body : list Expense.raw)
    (w : world) :
  (∃ item a, item ∈ body ∧ Expense.raw_amount item = Some a ∧ (a <= 0)%Q) →
  route_add_expenses db scs expense_date body w = (Unprocessable, w).
Proof.
  intros (item & a & Hin & Ha & Hle).
  apply invalid_item_unprocessable, Exists_exists.
  exists item. eauto using nonpositive_amount_invalid.
Qed.

Lemma nonpositive_amount_rejects_batch_witness :
  route_add_expenses (Some default_db) (λ _, calm) (aug 1)
    [Expense.Raw (Some "Food") (Some "Lunch") (Some (51 # 2));
     Expense.Raw (Some "Food") (Some "Test") (Some (0 # 1))] fresh
  = (Unprocessable, fresh).
Proof.
  apply nonpositive_amount_rejects_batch.
  exists (Expense.Raw (Some "Food") (Some "Test") (Some (0 # 1))), (0 # 1)%Q.
  split; [|split; [reflexivity|]].
  - apply list_elem_of_In. right. left. reflexivity.
  - discriminate.
Defined.

(** ** Operations that go through *)

Lemma insert_expense_goes_through (self : ExpenseDatabase) (sc : script)
    (d : date) (c n : string) (a : Q) (w : world) :
  goes_through sc →
  fst (insert_expense self sc d c n a w) = Return (auto_increment w)
  ∧ table (snd (insert_expense self sc d c n a w))
    = (table w ++ [Row (auto_increment w) d c n a])%list
  ∧ auto_increment (snd (insert_expense self sc d c n a w))
    = auto_increment w + 1.
Proof.
  destruct sc as [oc ocu oe ofe lab ocm orb occ ocl]; unfold goes_through.
  cbv [on_connect on_cursor on_execute on_fetchall lost_after_body on_commit
       on_rollback on_cursor_close on_conn_close].
  intros (-> & -> & -> & -> & -> & -> & ->).
  destruct w as [t ai tx co cu f rc lr cs].
  split_and!; vm_compute; reflexivity.
Qed.

Lemma delete_goes_through (self : ExpenseDatabase) (sc : script)
    (d : date) (w : world) :
  goes_through sc →
  fst (delete_expenses_for_date self sc d w)
  = Return (Z.of_nat (length (for_date d (table w))))
  ∧ table (snd (delete_expenses_for_date self sc d w))
    = not_for_date d (table w)
  ∧ auto_increment (snd (delete_expenses_for_date self sc d w))
    = auto_increment w.
Proof.
  destruct sc as [oc ocu oe ofe lab ocm orb occ ocl]; unfold goes_through.
  cbv [on_connect on_cursor on_execute on_fetchall lost_after_body on_commit
       on_rollback on_cursor_close on_conn_close].
  intros (-> & -> & -> & -> & -> & -> & ->).
  destruct w as [t ai tx co cu f rc lr cs].
  split_and!; vm_compute; reflexivity.
Qed.

Lemma fetch_reads (self : ExpenseDatabase) (sc : script) (d : date)
    (w : world) :
  reads sc →
  fst (fetch_expenses_for_date self sc d w)
  = Return (row_dict <$> for_date d (table w))
  ∧ table (snd (fetch_expenses_for_date self sc d w)) = table w
  ∧ auto_increment (snd (fetch_expenses_for_date self sc d w))
    = auto_increment w.
Proof.
  destruct sc as [oc ocu oe ofe lab ocm orb occ ocl]; unfold reads.
  cbv [on_connect on_cursor on_execute on_fetchall lost_after_body on_commit
       on_rollback on_cursor_close on_conn_close].
  intros (-> & -> & -> & -> & -> & ->).
  destruct w as [t ai tx co cu f rc lr cs], lab.
  all: split_and!; cbv -[row_dict for_date fmap]; reflexivity.
Qed.

(** ** Validation of a submitted batch *)

(** C3, as stated, fails: an item whose category and notes are the empty
    text passes validation; the batch is inserted and the row is in the
    table afterwards. *)
Lemma empty_category_and_notes_are_inserted :
  fst (route_add_expenses (Some default_db) (λ _, calm) (aug 1)
         [Expense.Raw (Some "") (Some "") (Some (5 # 1))] fresh)
  = OK {| created_message := "Successfully added 1 expense(s) for 2024-08-01.";
          inserted_count := 1;
          inserted_ids := [1] |}
  ∧ table (snd (route_add_expenses (Some default_db) (λ _, calm) (aug 1)
                  [Expense.Raw (Some "") (Some "") (Some (5 # 1))] fresh))
    = [Row 1 (aug 1) "" "" (5 # 1)].
Proof. split_and!; vm_compute; reflexivity. Qed.

(** C3, amended. Validation of an item asks for a category and notes that
    are present as text, empty or not, and for an amount that is present
    and strictly positive, and for nothing else. A batch with an item that
    fails this is answered 422 with the world untouched; a batch whose
    items all pass is handed to the handler. *)
Theorem validation_is_presence_and_positive_amount
    (db : option ExpenseDatabase) (scs : nat → script) (expense_date : date)
    (body : list Expense.raw) (w : world) :
  (∀ r, is_Some (Expense.validate r) ↔ acceptable r)
  ∧ (∀ a, (0 < a)%Q → acceptable (Expense.Raw (Some "") (Some "") (Some a)))
  ∧ (Exists (λ r, ¬ acceptable r) body →
     route_add_expenses db scs expense_date body w = (Unprocessable, w))
  ∧ (Forall acceptable body →
     ∃ expenses,
       mapM Expense.validate body = Some expenses
       ∧ route_add_expenses db scs expense_date body w
         = respond Some (add_expenses_for_date db scs expense_date expenses) w).
Proof.
  split_and!.
  - apply validate_is_Some.
  - intros a Ha. unfold acceptable; cbn. eauto.
  - intros H. apply invalid_item_unprocessable.
    eapply Exists_impl; [exact H|]. cbn. intros r Hr.
    destruct (Expense.validate r) eqn:Hv; [|done].
    destruct Hr. apply validate_is_Some. eauto.
  - intros H.
    destruct (mapM_is_Some_2 Expense.validate body) as [expenses He].
    { eapply Forall_impl; [exact H|]. intros r Hr. by apply validate_is_Some. }
    exists expenses. split; [done|]. unfold route_add_expenses. by rewrite He.
Qed.

Lemma validation_is_presence_and_positive_amount_witness :
  route_add_expenses (Some default_db) (λ _, calm) (aug 1)
    [Expense.Raw (Some "Food") None (Some (25 # 1))] fresh
  = (Unprocessable, fresh).
Proof.
  apply (validation_is_presence_and_positive_amount
           (Some default_db) (λ _, calm) (aug 1)
           [Expense.Raw (Some "Food") None (Some (25 # 1))] fresh).
  apply Exists_cons_hd. intros (_ & [n Hn] & _). discriminate.
Defined.

(** ** The ids of an inserted batch *)

Lemma length_ids_from (first : Z) (n : nat) : length (ids_from first n) = n.
Proof. revert first; induction n; intros; cbn; by f_equal. Qed.

Lemma lookup_ids_from (first : Z) (n i : nat) :
  (i < n)%nat → ids_from first n !! i = Some (first + Z.of_nat i).
Proof.
  revert first i; induction n as [|n IH]; intros first [|i] Hi; try lia.
  - cbn. f_equal. lia.
  - cbn. rewrite IH by lia. f_equal. lia.
Qed.

Lemma lookup_stored_as (first : Z) (d : date) (expenses : list Expense.t)
    (i : nat) (e : Expense.t) :
  expenses !! i = Some e →
  stored_as first d expenses !! i
  = Some (Row (first + Z.of_nat i) d (Expense.category e) (Expense.notes e)
              (Expense.amount e)).
Proof.
  revert first i; induction expenses as [|x rest IH]; intros first [|i] H;
    try done.
  - cbn in *. injection H as ->. do 2 f_equal. lia.
  - cbn in *. rewrite (IH _ _ H). do 2 f_equal. lia.
Qed.

Lemma insert_each_goes_through (self : ExpenseDatabase) (d : date)
    (expenses : list Expense.t) :
  ∀ (scs : nat → script) (acc : list Z) (w : world),
    (∀ i, (i < length expenses)%nat → goes_through (scs i)) →
    fst (insert_each self scs d expenses acc w)
    = Return (acc ++ ids_from (auto_increment w) (length expenses))%list
    ∧ table (snd (insert_each self scs d expenses acc w))
      = (table w ++ stored_as (auto_increment w) d expenses)%list
    ∧ auto_increment (snd (insert_each self scs d expenses acc w))
      = auto_increment w + Z.of_nat (length expenses).
Proof.
  induction expenses as [|e rest IH]; intros scs acc w Hscs.
  - cbn. rewrite !app_nil_r. split_and!; [done|done|lia].
  - destruct (insert_expense_goes_through self (scs 0%nat) d
                (Expense.category e) (Expense.notes e) (Expense.amount e) w)
      as (Hr & Ht & Ha); [apply Hscs; cbn; lia|].
    cbn [insert_each]. unfold bind.
    destruct (insert_expense self (scs 0%nat) d (Expense.category e)
                (Expense.notes e) (Expense.amount e) w) as [r w1].
    cbn [fst snd] in Hr, Ht, Ha. subst r. cbv beta iota.
    destruct (IH (λ i, scs (S i)) (acc ++ [auto_increment w])%list w1)
      as (Hr' & Ht' & Ha'); [intros i Hi; apply Hscs; cbn; lia|].
    rewrite Hr', Ht', Ha', Ht, Ha. cbn [length ids_from stored_as].
    rewrite <- !app_assoc. split_and!; [done|done|lia].
Qed.

(** C4. A batch of N items that passes validation, submitted with a
    storage handle while every insert goes through, is answered 200 with
    [inserted_count] N and N ids: the i-th id is the one the server
    generated for the i-th submitted item, and the row stored for that item
    carries it. *)
Theorem inserted_ids_follow_submission_order
    (self : ExpenseDatabase) (scs : nat → script) (expense_date : date)
    (body : list Expense.raw) (expenses : list Expense.t) (w : world) :
  mapM Expense.validate body = Some expenses →
  (∀ i, (i < length body)%nat → goes_through (scs i)) →
  let answer := route_add_expenses (Some self) scs expense_date body w in
  let ids := ids_from (auto_increment w) (length body) in
  fst answer
  = OK {| created_message :=
            "Successfully added " +:+ pretty (Z.of_nat (length body))
            +:+ " expense(s) for " +:+ str_date expense_date +:+ ".";
          inserted_count := Z.of_nat (length body);
          inserted_ids := ids |}
  ∧ length ids = length body
  ∧ table (snd answer)
    = (table w ++ stored_as (auto_increment w) expense_date expenses)%list
  ∧ ∀ i e, expenses !! i = Some e →
      ids !! i = Some (auto_increment w + Z.of_nat i)
      ∧ stored_as (auto_increment w) expense_date expenses !! i
        = Some (Row (auto_increment w + Z.of_nat i) expense_date
                    (Expense.category e) (Expense.notes e) (Expense.amount e)).
Proof.
  intros Hv Hscs answer ids. subst answer ids.
  pose proof (length_mapM _ _ _ Hv) as Hlen.
  unfold route_add_expenses. rewrite Hv.
  unfold respond, add_expenses_for_date, try_except, bind.
  destruct (insert_each_goes_through self expense_date expenses scs [] w)
    as (Hr & Ht & _); [intros i Hi; apply Hscs; lia|].
  destruct (insert_each self scs expense_date expenses [] w) as [r w1].
  cbn [fst snd] in Hr, Ht. subst r. cbn [app ret fst snd].
  rewrite Hlen, !length_ids_from. split_and!; [done|done|done|].
  intros i e Hi. split.
  - apply lookup_ids_from. by eapply lookup_lt_Some.
  - by apply lookup_stored_as.
Qed.

Lemma inserted_ids_follow_submission_order_witness :
  fst (route_add_expenses (Some default_db) (λ _, calm) (aug 1)
         [Expense.Raw (Some "Food") (Some "Lunch") (Some (51 # 2));
          Expense.Raw (Some "Transport") (Some "Bus") (Some (5 # 1))] fresh)
  = OK {| created_message := "Successfully added 2 expense(s) for 2024-08-01.";
          inserted_count := 2;
          inserted_ids := [1; 2] |}.
Proof.
  refine (proj1 (inserted_ids_follow_submission_order default_db (λ _, calm)
                   (aug 1)
                   [Expense.Raw (Some "Food") (Some "Lunch") (Some (51 # 2));
                    Expense.Raw (Some "Transport") (Some "Bus") (Some (5 # 1))]
                   [Expense.Make "Food" "Lunch" (51 # 2);
                    Expense.Make "Transport" "Bus" (5 # 1)]
                   fresh eq_refl _)).
  intros i _. repeat split.
Defined.

(** ** What [GET /expenses/{date}] sends *)

Lemma of_dict_row (r : row) :
  Expense.of_dict (row_dict r)
  = Expense.Raw (Some (row_category r)) (Some (row_notes r))
                (Some (row_amount r)).
Proof. destruct r. vm_compute. reflexivity. Qed.

Lemma row_through_response_model (r : row) :
  (0 < row_amount r)%Q →
  Expense.dump <$> Expense.validate (Expense.of_dict (row_dict r))
  = Some (public r).
Proof.
  intros Hpos%gt0_spec. rewrite of_dict_row. unfold Expense.validate; cbn.
  by rewrite Hpos.
Qed.

Lemma rows_through_response_model (rows : list row) :
  Forall (λ r, (0 < row_amount r)%Q) rows →
  mapM (λ o, Expense.dump <$> Expense.validate (Expense.of_dict o))
       (row_dict <$> rows)
  = Some (public <$> rows).
Proof.
  intros H. apply mapM_Some_2, Forall2_fmap, Forall_Forall2_diag.
  eapply Forall_impl; [exact H|]. intros r Hr.
  by apply row_through_response_model.
Qed.

Lemma public_values (r : row) :
  public r !! "category" = Some (VStr (row_category r))
  ∧ public r !! "notes" = Some (VStr (row_notes r))
  ∧ public r !! "amount" = Some (VNum (row_amount r))
  ∧ public r !! "id" = None
  ∧ public r !! "expense_date" = None.
Proof. destruct r. split_and!; vm_compute; reflexivity. Qed.

Lemma row_dict_values (r : row) :
  row_dict r !! "id" = Some (VInt (row_id r))
  ∧ row_dict r !! "expense_date" = Some (VDate (row_expense_date r)).
Proof. destruct r. split_and!; vm_compute; reflexivity. Qed.

Lemma public_keys (r : row) (k : string) :
  is_Some (public r !! k) ↔ k = "category" ∨ k = "notes" ∨ k = "amount".
Proof.
  split.
  - unfold public, Expense.dump.
    rewrite !lookup_insert_is_Some, lookup_empty.
    intros [ <- | [_ [ <- | [_ [ <- | [_ [? ?]]]]]]]; auto; discriminate.
  - destruct (public_values r) as (Hc & Hn & Ha & _).
    intros [ -> | [ -> | -> ]]; rewrite ?Hc, ?Hn, ?Ha; eauto.
Qed.

(** C2, as stated, fails: for a stored row of the requested date the
    response carries neither its id nor its date, although the data access
    layer returned both. *)
Lemma get_expenses_omits_id_and_date :
  fst (route_get_expenses (Some default_db) calm (aug 1)
         (World [Row 7 (aug 1) "Food" "Lunch" (51 # 2)] 8
                None None None [] 0 0 []))
  = OK [public (Row 7 (aug 1) "Food" "Lunch" (51 # 2))]
  ∧ public (Row 7 (aug 1) "Food" "Lunch" (51 # 2)) !! "id" = None
  ∧ public (Row 7 (aug 1) "Food" "Lunch" (51 # 2)) !! "expense_date" = None
  ∧ fst (fetch_expenses_for_date default_db calm (aug 1)
           (World [Row 7 (aug 1) "Food" "Lunch" (51 # 2)] 8
                  None None None [] 0 0 []))
    = Return [row_dict (Row 7 (aug 1) "Food" "Lunch" (51 # 2))]
  ∧ row_dict (Row 7 (aug 1) "Food" "Lunch" (51 # 2)) !! "id"
    = Some (VInt 7).
Proof. split_and!; vm_compute; reflexivity. Qed.

(** C2, amended. With a storage handle, a read that passes and stored
    amounts that are positive, the response lists, for the stored rows of
    the requested date in the order the storage returns them, one object
    each with exactly the fields category, notes and amount of the row; the
    id and the date of the row, which the data access layer returns, are
    not in it. *)
Theorem get_expenses_sends_expense_fields_only
    (self : ExpenseDatabase) (sc : script) (expense_date : date) (w : world) :
  reads sc →
  Forall (λ r, (0 < row_amount r)%Q) (for_date expense_date (table w)) →
  fst (route_get_expenses (Some self) sc expense_date w)
  = OK (public <$> for_date expense_date (table w))
  ∧ fst (fetch_expenses_for_date self sc expense_date w)
    = Return (row_dict <$> for_date expense_date (table w))
  ∧ ∀ r,
      (∀ k, is_Some (public r !! k)
            ↔ k = "category" ∨ k = "notes" ∨ k = "amount")
      ∧ (public r !! "category" = Some (VStr (row_category r))
         ∧ public r !! "notes" = Some (VStr (row_notes r))
         ∧ public r !! "amount" = Some (VNum (row_amount r))
         ∧ public r !! "id" = None
         ∧ public r !! "expense_date" = None)
      ∧ row_dict r !! "id" = Some (VInt (row_id r))
      ∧ row_dict r !! "expense_date" = Some (VDate (row_expense_date r)).
Proof.
  intros Hsc Hpos.
  destruct (fetch_reads self sc expense_date w Hsc) as (Hr & _).
  split_and!.
  - unfold route_get_expenses, respond, get_expenses_for_date, try_except, bind.
    destruct (fetch_expenses_for_date self sc expense_date w) as [r w1].
    cbn [fst] in Hr. subst r. cbn [ret].
    by rewrite (rows_through_response_model _ Hpos).
  - exact Hr.
  - intros r.
    split; [apply public_keys|]. split; [apply public_values|].
    apply row_dict_values.
Qed.

Lemma get_expenses_sends_expense_fields_only_witness :
  fst (route_get_expenses (Some default_db) calm (aug 1)
         (World [Row 7 (aug 1) "Food" "Lunch" (51 # 2)] 8
                None None None [] 0 0 []))
  = OK [public (Row 7 (aug 1) "Food" "Lunch" (51 # 2))].
Proof.
  refine (proj1 (get_expenses_sends_expense_fields_only default_db calm (aug 1)
                   (World [Row 7 (aug 1) "Food" "Lunch" (51 # 2)] 8
                          None None None [] 0 0 []) _ _)).
  - repeat split.
  - apply Forall_cons. split; [reflexivity | apply Forall_nil_2].
Defined.

(** ** Dates without records *)

Lemma nothing_to_delete (d : date) (rows : list row) :
  for_date d rows = [] → not_for_date d rows = rows.
Proof.
  unfold for_date, not_for_date. induction rows as [|r rows IH]; [done|].
  rewrite !filter_cons. destruct (decide (row_expense_date r = d)) as [He|Hne].
  - discriminate.
  - intros H. rewrite decide_True by done. f_equal. by apply IH.
Qed.

(** C8, as stated, fails: without a storage handle the delete on a date
    that has no records is answered 503, and so is the list; with a handle
    and a server that cannot be reached the delete is answered 500. *)
Lemma delete_without_database_is_503 :
  for_date (aug 1) (table fresh) = []
  ∧ fst (route_delete_expenses None calm (aug 1) fresh)
    = Error 503 "Database connection is not available."
  ∧ fst (route_get_expenses None calm (aug 1) fresh)
    = Error 503 "Database connection is not available."
  ∧ fst (route_delete_expenses (Some default_db)
           (Script (Fail (MySQLError "Can't connect to MySQL server") true)
                   Pass Pass Pass false Pass Pass Pass Pass)
           (aug 1) fresh)
    = Error 500 "An internal server error occurred while deleting expenses.".
Proof. split_and!; vm_compute; reflexivity. Qed.

(** C8, amended. For a date with no stored records, with a storage handle
    and driver calls that pass: the delete is answered 200 with count 0 and
    leaves the table and the id counter as they were; a second delete is
    answered the same and leaves them so again; the list is answered 200
    with the empty collection. Without a storage handle both are answered
    503 and the world is untouched. *)
Theorem delete_on_empty_date_is_noop
    (self : ExpenseDatabase) (sc sc' sc'' : script) (expense_date : date)
    (w : world) :
  goes_through sc → goes_through sc' → reads sc'' →
  for_date expense_date (table w) = [] →
  let once := route_delete_expenses (Some self) sc expense_date w in
  let twice := route_delete_expenses (Some self) sc' expense_date (snd once) in
  fst once
  = OK {| deleted_message :=
            "Successfully deleted 0 expense(s) for "
            +:+ str_date expense_date +:+ ".";
          deleted_count := 0 |}
  ∧ table (snd once) = table w
  ∧ auto_increment (snd once) = auto_increment w
  ∧ fst twice = fst once
  ∧ table (snd twice) = table w
  ∧ auto_increment (snd twice) = auto_increment w
  ∧ fst (route_get_expenses (Some self) sc'' expense_date w) = OK []
  ∧ route_delete_expenses None sc expense_date w
    = (Error 503 "Database connection is not available.", w)
  ∧ route_get_expenses None sc'' expense_date w
    = (Error 503 "Database connection is not available.", w).
Proof.
  intros Hsc Hsc' Hsc'' Hnone once twice.
  assert (Hstep : ∀ s v, goes_through s → for_date expense_date (table v) = [] →
    fst (route_delete_expenses (Some self) s expense_date v)
    = OK {| deleted_message :=
              "Successfully deleted 0 expense(s) for "
              +:+ str_date expense_date +:+ ".";
            deleted_count := 0 |}
    ∧ table (snd (route_delete_expenses (Some self) s expense_date v)) = table v
    ∧ auto_increment (snd (route_delete_expenses (Some self) s expense_date v))
      = auto_increment v).
  { intros s v Hs Hv.
    unfold route_delete_expenses, respond, delete_expenses_for_date_handler,
      try_except, bind.
    destruct (delete_goes_through self s expense_date v Hs) as (Hr & Ht & Ha).
    destruct (delete_expenses_for_date self s expense_date v) as [r v1].
    cbn [fst snd] in Hr, Ht, Ha. rewrite Hv in Hr. subst r.
    cbn [ret fst snd length]. rewrite Ht, Ha, (nothing_to_delete _ _ Hv).
    done. }
  destruct (Hstep sc w Hsc Hnone) as (H1 & H2 & H3).
  destruct (Hstep sc' (snd once) Hsc') as (H4 & H5 & H6).
  { subst once. by rewrite H2. }
  subst twice once. rewrite H4, H5, H6, H1, H2, H3. split_and!; try done.
  unfold route_get_expenses, respond, get_expenses_for_date, try_except, bind.
  destruct (fetch_reads self sc'' expense_date w Hsc'') as (Hr & _).
  destruct (fetch_expenses_for_date self sc'' expense_date w) as [r w1].
  cbn [fst] in Hr. subst r. by rewrite Hnone.
Qed.

Lemma delete_on_empty_date_is_noop_witness :
  fst (route_delete_expenses (Some default_db) calm (aug 2)
         (World [Row 7 (aug 1) "Food" "Lunch" (51 # 2)] 8
                None None None [] 0 0 []))
  = OK {| deleted_message := "Successfully deleted 0 expense(s) for 2024-08-02.";
          deleted_count := 0 |}.
Proof.
  refine (proj1 (delete_on_empty_date_is_noop default_db calm calm calm (aug 2)
                   (World [Row 7 (aug 1) "Food" "Lunch" (51 # 2)] 8
                          None None None [] 0 0 []) _ _ _ _)).
  - repeat split.
  - repeat split.
  - repeat split.
  - reflexivity.
Defined.

(** * Further properties of the data access layer *)

(** ** Reading never writes *)

Lemma reads_keep_storage (self : ExpenseDatabase) (sc : script) (w : world) :
  (∀ d, table (snd (fetch_expenses_for_date self sc d w)) = table w
        ∧ auto_increment (snd (fetch_expenses_for_date self sc d w))
          = auto_increment w)
  ∧ (∀ s e, table (snd (fetch_expense_summary self sc s e w)) = table w
            ∧ auto_increment (snd (fetch_expense_summary self sc s e w))
              = auto_increment w).
Proof.
  split; intros.
  - unfold fetch_expenses_for_date.
    destruct (after_finally self sc false (fetch_expenses_for_date_body sc d) w)
      as (_ & -> & -> & _).
    open_script sc w.
    read_cases oc ocu oe ofe lab; split; vm_compute; reflexivity.
  - unfold fetch_expense_summary.
    destruct (after_finally self sc false (fetch_expense_summary_body sc s e) w)
      as (_ & -> & -> & _).
    open_script sc w.
    read_cases oc ocu oe ofe lab; split; vm_compute; reflexivity.
Qed.

(** X2. Whatever the driver does (every call passes, any call raises any
    exception, the link is lost), the two reading operations leave the
    table and the id counter as they found them, whether they return or
    raise. *)
Theorem reads_leave_storage_unchanged
    (self : ExpenseDatabase) (sc : script) (w : world) :
  (∀ d, table (snd (fetch_expenses_for_date self sc d w)) = table w
        ∧ auto_increment (snd (fetch_expenses_for_date self sc d w))
          = auto_increment w)
  ∧ (∀ s e, table (snd (fetch_expense_summary self sc s e w)) = table w
            ∧ auto_increment (snd (fetch_expense_summary self sc s e w))
              = auto_increment w).
Proof. exact (reads_keep_storage self sc w). Qed.

(** ** The context manager on its different paths *)

(** X3. When every driver call passes, a mutating operation makes exactly
    the calls connect, cursor, execute (its one statement with the caller's
    values as bound parameters), commit, cursor.close, conn.close, in that
    order: the commit comes before the release. A reading operation makes
    the calls connect, cursor, execute, fetchall, cursor.close, conn.close
    and no commit. *)
Theorem calls_when_everything_passes
    (self : ExpenseDatabase) (sc : script) (w : world) :
  goes_through sc → on_fetchall sc = Pass →
  (∀ d c n a,
     calls (snd (insert_expense self sc d c n a w))
     = (mutation_calls self INSERT_EXPENSE
          [VDate d; VStr c; VStr n; VNum a] ++ calls w)%list)
  ∧ (∀ d,
       calls (snd (delete_expenses_for_date self sc d w))
       = (mutation_calls self DELETE_FOR_DATE [VDate d] ++ calls w)%list)
  ∧ (∀ d,
       calls (snd (fetch_expenses_for_date self sc d w))
       = (read_calls self SELECT_FOR_DATE [VDate d] ++ calls w)%list)
  ∧ (∀ s e,
       calls (snd (fetch_expense_summary self sc s e w))
       = (read_calls self SELECT_SUMMARY [VDate s; VDate e] ++ calls w)%list).
Proof.
  destruct sc as [oc ocu oe ofe lab ocm orb occ ocl]; unfold goes_through.
  cbv [on_connect on_cursor on_execute on_fetchall lost_after_body on_commit
       on_rollback on_cursor_close on_conn_close].
  intros (-> & -> & -> & -> & -> & -> & ->) ->.
  destruct w as [t ai tx co cu f rc lr cs].
  split_and!; intros; vm_compute; reflexivity.
Qed.

Lemma calls_when_everything_passes_witness :
  calls (snd (insert_expense default_db calm (aug 1) "Food" "Lunch" (51 # 2)
                fresh))
  = [CConnClose; CCursorClose; CCommit;
     CExecute INSERT_EXPENSE
       [VDate (aug 1); VStr "Food"; VStr "Lunch"; VNum (51 # 2)];
     CCursor; CConnect default_db].
Proof.
  refine (proj1 (calls_when_everything_passes default_db calm fresh _ _)
            (aug 1) "Food" "Lunch" (51 # 2)%Q).
  - repeat split.
  - reflexivity.
Defined.

(** X4. When [connect] raises, whatever it raises: the exception reaches the
    caller unchanged, the body of the [with] block is not run, no other
    driver call is made (there is no cursor and no connection to close),
    and the table is untouched. This holds for any body, so for the four
    operations. *)
Theorem connect_failure_propagates {A : Type}
    (self : ExpenseDatabase) (sc : script) (commit : bool) (body : M A)
    (w : world) (e : exn) (lost : bool) :
  on_connect sc = Fail e lost →
  fst (_get_db_cursor self sc commit body w) = Raise e
  ∧ calls (snd (_get_db_cursor self sc commit body w))
    = CConnect self :: calls w
  ∧ table (snd (_get_db_cursor self sc commit body w)) = table w
  ∧ auto_increment (snd (_get_db_cursor self sc commit body w))
    = auto_increment w.
Proof.
  destruct sc as [oc ocu oe ofe lab ocm orb occ ocl]. cbv [on_connect]. intros ->.
  destruct w as [t ai tx co cu f rc lr cs], e, commit;
    split_and!; vm_compute; reflexivity.
Qed.

Lemma connect_failure_propagates_witness :
  fst (fetch_expenses_for_date default_db
         (Script (Fail (MySQLError "Connection failed") true)
                 Pass Pass Pass false Pass Pass Pass Pass)
         (aug 1) fresh)
  = Raise (MySQLError "Connection failed").
Proof.
  exact (proj1 (connect_failure_propagates default_db
                  (Script (Fail (MySQLError "Connection failed") true)
                          Pass Pass Pass false Pass Pass Pass Pass)
                  false
                  (fetch_expenses_for_date_body
                     (Script (Fail (MySQLError "Connection failed") true)
                             Pass Pass Pass false Pass Pass Pass Pass) (aug 1))
                  fresh (MySQLError "Connection failed") true eq_refl)).
Defined.

(** X5. When the statement of an insert or of a delete passes but the link
    is then found down by [is_connected()], the commit is skipped without
    any error: the cursor is closed, the connection is not (it is not
    connected), and when [cursor.close()] returns the insert returns the
    new id and the delete returns its row count, while the table is what
    it was. *)
Theorem lost_link_skips_commit_silently
    (self : ExpenseDatabase) (sc : script) (w : world) :
  on_connect sc = Pass → on_cursor sc = Pass → on_execute sc = Pass →
  lost_after_body sc = true → on_cursor_close sc = Pass →
  (∀ d c n a,
     fst (insert_expense self sc d c n a w) = Return (auto_increment w)
     ∧ table (snd (insert_expense self sc d c n a w)) = table w
     ∧ calls (snd (insert_expense self sc d c n a w))
       = CCursorClose
         :: CExecute INSERT_EXPENSE [VDate d; VStr c; VStr n; VNum a]
         :: CCursor :: CConnect self :: calls w)
  ∧ (∀ d,
       fst (delete_expenses_for_date self sc d w)
       = Return (Z.of_nat (length (for_date d (table w))))
       ∧ table (snd (delete_expenses_for_date self sc d w)) = table w
       ∧ calls (snd (delete_expenses_for_date self sc d w))
         = CCursorClose :: CExecute DELETE_FOR_DATE [VDate d]
           :: CCursor :: CConnect self :: calls w).
Proof.
  destruct sc as [oc ocu oe ofe lab ocm orb occ ocl].
  cbv [on_connect on_cursor on_execute on_fetchall lost_after_body on_commit
       on_rollback on_cursor_close on_conn_close].
  intros -> -> -> -> ->.
  destruct w as [t ai tx co cu f rc lr cs].
  split; intros; split_and!; vm_compute; reflexivity.
Qed.

Lemma lost_link_skips_commit_silently_witness :
  fst (insert_expense default_db (Script Pass Pass Pass Pass true Pass Pass Pass Pass)
         (aug 1) "Food" "Lunch" (51 # 2) fresh) = Return 1
  ∧ table (snd (insert_expense default_db (Script Pass Pass Pass Pass true Pass Pass Pass Pass)
                  (aug 1) "Food" "Lunch" (51 # 2) fresh)) = [].
Proof.
  destruct (proj1 (lost_link_skips_commit_silently default_db
                     (Script Pass Pass Pass Pass true Pass Pass Pass Pass) fresh
                     eq_refl eq_refl eq_refl eq_refl eq_refl)
              (aug 1) "Food" "Lunch" (51 # 2)%Q) as (Hr & Ht & _).
  exact (conj Hr Ht).
Defined.

(** X6. The [except] clause catches [mysql.connector.Error] only: when
    [execute] of an insert or of a delete raises any other exception with
    the link kept, no [rollback()] is called; cursor and connection are
    closed, and when the two close calls return the exception reaches the
    caller unchanged and the table is what it was (the uncommitted work
    goes with the connection). *)
Theorem other_exception_is_not_rolled_back
    (self : ExpenseDatabase) (sc : script) (w : world) (e : exn) :
  on_connect sc = Pass → on_cursor sc = Pass →
  on_execute sc = Fail e false → (∀ msg, e ≠ MySQLError msg) →
  on_cursor_close sc = Pass → on_conn_close sc = Pass →
  (∀ d c n a,
     fst (insert_expense self sc d c n a w) = Raise e
     ∧ table (snd (insert_expense self sc d c n a w)) = table w
     ∧ calls (snd (insert_expense self sc d c n a w))
       = CConnClose :: CCursorClose
         :: CExecute INSERT_EXPENSE [VDate d; VStr c; VStr n; VNum a]
         :: CCursor :: CConnect self :: calls w)
  ∧ (∀ d,
       fst (delete_expenses_for_date self sc d w) = Raise e
       ∧ table (snd (delete_expenses_for_date self sc d w)) = table w
       ∧ calls (snd (delete_expenses_for_date self sc d w))
         = CConnClose :: CCursorClose :: CExecute DELETE_FOR_DATE [VDate d]
           :: CCursor :: CConnect self :: calls w).
Proof.
  destruct sc as [oc ocu oe ofe lab ocm orb occ ocl].
  cbv [on_connect on_cursor on_execute on_fetchall lost_after_body on_commit
       on_rollback on_cursor_close on_conn_close].
  intros -> -> -> Hne -> ->.
  destruct w as [t ai tx co cu f rc lr cs].
  destruct e as [msg|msg|code detail]; [by destruct (Hne msg)|..];
    split; intros; split_and!; vm_compute; reflexivity.
Qed.

Lemma other_exception_is_not_rolled_back_witness :
  fst (insert_expense default_db
         (Script Pass Pass (Fail (OtherError "TypeError") false) Pass false Pass Pass Pass Pass)
         (aug 1) "Food" "Lunch" (51 # 2) fresh)
  = Raise (OtherError "TypeError").
Proof.
  refine (proj1 (proj1 (other_exception_is_not_rolled_back default_db
                     (Script Pass Pass (Fail (OtherError "TypeError") false)
                             Pass false Pass Pass Pass Pass)
                     fresh (OtherError "TypeError") eq_refl eq_refl eq_refl _
                     eq_refl eq_refl)
              (aug 1) "Food" "Lunch" (51 # 2)%Q)).
  intros msg. discriminate.
Defined.

(** X7. An insert or a delete changes the table only through a commit
    that returns. When the commit is not reached ([connect], [cursor()] or
    [execute] raises, or the link is found down after the statement), the
    table is what it was, whatever [rollback()] and the close calls do and
    whether the call returns or raises. When the commit is reached and
    returns, the new row is stored (the rows of the date are gone),
    whatever the close calls do: if [cursor.close()] then raises, the call
    raises that error although the change is stored. An insert that
    returns has returned the id the server was about to hand out. A commit
    that raises is left out: what it leaves on the server is the driver's
    matter, not the code's. *)
Theorem table_changes_only_through_commit
    (self : ExpenseDatabase) (sc : script) (w : world) :
  (commit_reached sc = false →
     (∀ d c n a, table (snd (insert_expense self sc d c n a w)) = table w)
     ∧ (∀ d, table (snd (delete_expenses_for_date self sc d w)) = table w))
  ∧ (commit_reached sc = true → on_commit sc = Pass →
     (∀ d c n a,
        table (snd (insert_expense self sc d c n a w))
        = (table w ++ [Row (auto_increment w) d c n a])%list)
     ∧ (∀ d, table (snd (delete_expenses_for_date self sc d w))
             = not_for_date d (table w))
     ∧ (∀ e lost, on_cursor_close sc = Fail e lost →
          (∀ d c n a, fst (insert_expense self sc d c n a w) = Raise e)
          ∧ (∀ d, fst (delete_expenses_for_date self sc d w) = Raise e)))
  ∧ (∀ d c n a id,
       fst (insert_expense self sc d c n a w) = Return id →
       id = auto_increment w).
Proof.
  split_and!.
  - intros Hn. split; intros.
    + unfold insert_expense.
      destruct (after_finally self sc true (insert_expense_body sc d c n a) w)
        as (_ & -> & _).
      revert Hn. unfold commit_reached. open_script sc w.
      mutation_cases oc ocu oe lab ocm orb; intros Hn; vm_compute in Hn;
        first [discriminate Hn | vm_compute; reflexivity].
    + unfold delete_expenses_for_date.
      destruct (after_finally self sc true (delete_expenses_for_date_body sc d) w)
        as (_ & -> & _).
      revert Hn. unfold commit_reached. open_script sc w.
      mutation_cases oc ocu oe lab ocm orb; intros Hn; vm_compute in Hn;
        first [discriminate Hn | vm_compute; reflexivity].
  - intros Hr Hcm. split_and!; intros.
    + unfold insert_expense.
      destruct (after_finally self sc true (insert_expense_body sc d c n a) w)
        as (_ & -> & _).
      revert Hr Hcm. unfold commit_reached. open_script sc w.
      destruct oc, ocu, oe, lab; intros Hr; vm_compute in Hr;
        try discriminate Hr; intros ->; vm_compute; reflexivity.
    + unfold delete_expenses_for_date.
      destruct (after_finally self sc true (delete_expenses_for_date_body sc d) w)
        as (_ & -> & _).
      revert Hr Hcm. unfold commit_reached. open_script sc w.
      destruct oc, ocu, oe, lab; intros Hr; vm_compute in Hr;
        try discriminate Hr; intros ->; vm_compute; reflexivity.
    + revert Hr Hcm H. unfold commit_reached. open_script sc w.
      destruct oc, ocu, oe, lab; intros Hr; vm_compute in Hr;
        try discriminate Hr; intros -> ->.
      destruct lost; split; intros; vm_compute; reflexivity.
  - intros d c n a id H. unfold insert_expense in H.
    destruct (after_finally self sc true (insert_expense_body sc d c n a) w)
      as (_ & _ & _ & _ & Hret & _).
    apply Hret in H. clear Hret. revert H. open_script sc w.
    mutation_cases oc ocu oe lab ocm orb; vm_compute; intros H;
      first [discriminate H | by injection H].
Qed.

Lemma table_changes_only_through_commit_witness :
  fst (insert_expense default_db
         (Script Pass Pass Pass Pass false Pass Pass
                 (Fail (MySQLError "Unread result found") false) Pass)
         (aug 1) "Food" "Lunch" (51 # 2) fresh)
  = Raise (MySQLError "Unread result found")
  ∧ table (snd (insert_expense default_db
                  (Script Pass Pass Pass Pass false Pass Pass
                          (Fail (MySQLError "Unread result found") false) Pass)
                  (aug 1) "Food" "Lunch" (51 # 2) fresh))
    = [Row 1 (aug 1) "Food" "Lunch" (51 # 2)].
Proof.
  destruct (proj1 (proj2 (table_changes_only_through_commit default_db
                            (Script Pass Pass Pass Pass false Pass Pass
                                    (Fail (MySQLError "Unread result found") false)
                                    Pass)
                            fresh)) eq_refl eq_refl) as (Hi & _ & Hraise).
  split.
  - exact (proj1 (Hraise (MySQLError "Unread result found") false eq_refl)
             (aug 1) "Food" "Lunch" (51 # 2)%Q).
  - exact (Hi (aug 1) "Food" "Lunch" (51 # 2)%Q).
Defined.

(** ** Insert, delete and list compose *)


Lemma for_date_after_delete (d d' : date) (rows : list row) :
  for_date d' (not_for_date d rows)
  = if decide (d' = d) then [] else for_date d' rows.
Proof.
  unfold for_date, not_for_date. induction rows as [|r rows IH].
  - by destruct (decide (d' = d)).
  - rewrite !filter_cons.
    destruct (decide (row_expense_date r ≠ d)) as [Hne|He].
    + rewrite filter_cons, IH.
      destruct (decide (row_expense_date r = d')) as [Hr|?];
        destruct (decide (d' = d)) as [Hd|?]; try done.
      destruct Hne. congruence.
    + apply dec_stable in He. rewrite IH.
      destruct (decide (d' = d)) as [->|Hd]; [done|].
      rewrite decide_False by congruence. done.
Qed.



(** X9. A delete that goes through returns the number of records the list
    for that date returned before it; afterwards the list for that date is
    empty, the list for any other date is what it was, and the table is
    the old one without the records of that date, the others in their
    order. *)
Theorem delete_then_fetch
    (self : ExpenseDatabase) (sc sc' : script) (d : date) (w : world) :
  goes_through sc → reads sc' →
  let deleted := delete_expenses_for_date self sc d w in
  (∃ rows, fst (fetch_expenses_for_date self sc' d w) = Return rows
           ∧ fst deleted = Return (Z.of_nat (length rows)))
  ∧ table (snd deleted) = not_for_date d (table w)
  ∧ fst (fetch_expenses_for_date self sc' d (snd deleted)) = Return []
  ∧ ∀ d', d' ≠ d →
      fst (fetch_expenses_for_date self sc' d' (snd deleted))
      = fst (fetch_expenses_for_date self sc' d' w).
Proof.
  intros Hsc Hsc' deleted. subst deleted.
  destruct (delete_goes_through self sc d w Hsc) as (Hr & Ht & _).
  split_and!.
  - eexists. split; [apply (fetch_reads self sc' d w Hsc')|].
    by rewrite Hr, length_fmap.
  - exact Ht.
  - rewrite (proj1 (fetch_reads self sc' d _ Hsc')), Ht, for_date_after_delete.
    by rewrite decide_True.
  - intros d' Hne.
    rewrite (proj1 (fetch_reads self sc' d' _ Hsc')),
      (proj1 (fetch_reads self sc' d' w Hsc')), Ht, for_date_after_delete.
    by rewrite decide_False.
Qed.

Lemma delete_then_fetch_witness :
  fst (fetch_expenses_for_date default_db calm (aug 1)
         (snd (delete_expenses_for_date default_db calm (aug 1)
                 (World [Row 7 (aug 1) "Food" "Lunch" (51 # 2)] 8
                        None None None [] 0 0 []))))
  = Return [].
Proof.
  refine (proj1 (proj2 (proj2 (delete_then_fetch default_db calm calm (aug 1)
            (World [Row 7 (aug 1) "Food" "Lunch" (51 # 2)] 8
                   None None None [] 0 0 []) _ _)))).
  - repeat split.
  - repeat split.
Defined.

(** ** The summary *)

Lemma date_gt_spec (a b : date) :
  date_gt a b = true
  ↔ year a > year b
    ∨ (year a = year b
       ∧ (month a > month b ∨ (month a = month b ∧ day a > day b))).
Proof.
  unfold date_gt, date_compare.
  destruct (Z.compare_spec (year a) (year b));
    destruct (Z.compare_spec (month a) (month b));
    destruct (Z.compare_spec (day a) (day b));
    split; intros; try discriminate; try reflexivity; lia.
Qed.

Lemma reversed_range_is_empty (s e : date) (rows : list row) :
  date_gt s e = true → in_range s e rows = [].
Proof.
  intros Hgt. unfold in_range. induction rows as [|r rows IH]; [done|].
  rewrite filter_cons, IH. rewrite decide_False; [done|].
  unfold between, date_le. intros [Hs He]%andb_true_iff.
  apply negb_true_iff, not_true_iff_false in Hs, He.
  rewrite date_gt_spec in Hgt, Hs, He. lia.
Qed.

Lemma summary_of_unfold (s e : date) (rows : list row) :
  summary_of s e rows
  = (λ c, summary_row c
            (sum_amounts (filter (λ r, row_category r = c)
                            (in_range s e rows))))
    <$> remove_dups (row_category <$> in_range s e rows).
Proof. reflexivity. Qed.

Lemma summary_reads (self : ExpenseDatabase) (sc : script) (s e : date)
    (w : world) :
  reads sc →
  fst (fetch_expense_summary self sc s e w)
  = Return (summary_of s e (table w)).
Proof.
  destruct sc as [oc ocu oe ofe lab ocm orb occ ocl]; unfold reads.
  cbv [on_connect on_cursor on_execute on_fetchall lost_after_body on_commit
       on_rollback on_cursor_close on_conn_close].
  intros (-> & -> & -> & -> & -> & ->).
  destruct w as [t ai tx co cu f rc lr cs], lab;
    cbv -[summary_of]; reflexivity.
Qed.

(** X11. The data access layer does not check the order of the two dates:
    a summary read that passes for a range with [start_date > end_date]
    returns the empty list. *)
Theorem summary_of_reversed_range_is_empty
    (self : ExpenseDatabase) (sc : script) (s e : date) (w : world) :
  reads sc → date_gt s e = true →
  fst (fetch_expense_summary self sc s e w) = Return [].
Proof.
  intros Hsc Hgt.
  rewrite (summary_reads self sc s e w Hsc), summary_of_unfold.
  by rewrite (reversed_range_is_empty s e _ Hgt).
Qed.

Lemma summary_of_reversed_range_is_empty_witness :
  fst (fetch_expense_summary default_db calm (aug 31) (aug 1)
         (World [Row 7 (aug 2) "Food" "Lunch" (51 # 2)] 8
                None None None [] 0 0 []))
  = Return [].
Proof.
  apply summary_of_reversed_range_is_empty.
  - repeat split.
  - reflexivity.
Defined.

Lemma total_of_summary_row (c : string) (x : Q) :
  total_of (summary_row c x) = x.
Proof. reflexivity. Qed.

Lemma sum_amounts_cons (r : row) (rows : list row) :
  sum_amounts (r :: rows) = (row_amount r + sum_amounts rows)%Q.
Proof. reflexivity. Qed.

Lemma sumQ_indicator (k : string) (x : Q) (cats : list string) :
  NoDup cats → k ∈ cats →
  (sumQ ((λ c, if decide (k = c) then x else 0 # 1) <$> cats) == x)%Q.
Proof.
  induction cats as [|c cats IH]; intros Hnd Hin.
  - by apply elem_of_nil in Hin.
  - apply NoDup_cons in Hnd as [Hc Hnd]. cbn [fmap list_fmap sumQ foldr].
    fold (sumQ ((λ c, if decide (k = c) then x else 0 # 1) <$> cats)).
    destruct (decide (k = c)) as [->|Hne].
    + assert (Hz : (sumQ ((λ c0, if decide (c = c0) then x else 0 # 1)
                            <$> cats) == 0)%Q).
      { clear IH Hin Hnd. induction cats as [|c' cats IH]; [reflexivity|].
        apply not_elem_of_cons in Hc as [Hne Hc].
        cbn [fmap list_fmap sumQ foldr]. rewrite decide_False by done.
        fold (sumQ ((λ c0, if decide (c = c0) then x else 0 # 1) <$> cats)).
        rewrite (IH Hc). ring. }
      rewrite Hz. ring.
    + apply elem_of_cons in Hin as [?|Hin]; [done|].
      rewrite (IH Hnd Hin). ring.
Qed.

Lemma sumQ_split (r : row) (hits : list row) (cats : list string) :
  (sumQ ((λ c, sum_amounts (filter (λ r, row_category r = c) (r :: hits)))
         <$> cats)
   == sumQ ((λ c, if decide (row_category r = c) then row_amount r else 0 # 1)
            <$> cats)
      + sumQ ((λ c, sum_amounts (filter (λ r, row_category r = c) hits))
              <$> cats))%Q.
Proof.
  induction cats as [|c cats IH]; [reflexivity|].
  cbn [fmap list_fmap sumQ foldr] in *. rewrite filter_cons.
  destruct (decide (row_category r = c)).
  - rewrite sum_amounts_cons, IH. unfold sumQ. ring.
  - rewrite IH. unfold sumQ. ring.
Qed.

Lemma sumQ_by_category (hits : list row) (cats : list string) :
  NoDup cats → (∀ r, r ∈ hits → row_category r ∈ cats) →
  (sumQ ((λ c, sum_amounts (filter (λ r, row_category r = c) hits)) <$> cats)
   == sum_amounts hits)%Q.
Proof.
  intros Hnd. induction hits as [|r hits IH]; intros Hin.
  - clear Hnd Hin. induction cats as [|c cats IH]; [reflexivity|].
    cbn [fmap list_fmap sumQ foldr] in *. rewrite IH. reflexivity.
  - assert (Hrest : ∀ r', r' ∈ hits → row_category r' ∈ cats).
    { intros r' Hr'. apply Hin, elem_of_cons. by right. }
    assert (Hhere : row_category r ∈ cats).
    { apply Hin, elem_of_cons. by left. }
    pose proof (sumQ_indicator (row_category r) (row_amount r) cats Hnd
                  Hhere) as Hind.
    rewrite sumQ_split, Hind, (IH Hrest), sum_amounts_cons. reflexivity.
Qed.

(** X12. The totals of a summary read that passes add up to the sum of the
    amounts of all records of the range: no record of the range is left
    out of the summary and none is counted twice. *)
Theorem summary_totals_add_up
    (self : ExpenseDatabase) (sc : script) (s e : date) (w : world) :
  reads sc →
  ∃ summary,
    fst (fetch_expense_summary self sc s e w) = Return summary
    ∧ (sumQ (total_of <$> summary)
       == sum_amounts (in_range s e (table w)))%Q.
Proof.
  intros Hsc. eexists. split; [apply (summary_reads self sc s e w Hsc)|].
  rewrite summary_of_unfold, <- list_fmap_compose.
  rewrite (list_fmap_ext _
             (λ c, sum_amounts (filter (λ r, row_category r = c)
                                  (in_range s e (table w)))))
    by (intros; apply total_of_summary_row).
  apply sumQ_by_category; [apply NoDup_remove_dups|].
  intros r Hr. apply elem_of_remove_dups, list_elem_of_fmap. eauto.
Qed.

Lemma summary_totals_add_up_witness :
  ∃ summary,
    fst (fetch_expense_summary default_db calm (aug 1) (aug 31)
           (World [Row 7 (aug 1) "Food" "Lunch" (51 # 2);
                   Row 8 (aug 1) "Transport" "Bus" (5 # 1)] 9
                  None None None [] 0 0 []))
    = Return summary
    ∧ (sumQ (total_of <$> summary)
       == sum_amounts (in_range (aug 1) (aug 31)
            [Row 7 (aug 1) "Food" "Lunch" (51 # 2);
             Row 8 (aug 1) "Transport" "Bus" (5 # 1)]))%Q.
Proof.
  apply (summary_totals_add_up default_db calm (aug 1) (aug 31)
           (World [Row 7 (aug 1) "Food" "Lunch" (51 # 2);
                   Row 8 (aug 1) "Transport" "Bus" (5 # 1)] 9
                  None None None [] 0 0 [])).
  repeat split.
Defined.

(** * Further properties of the request mapping *)

(** ** Failures of the storage *)

(** X13. With a storage handle, a route answers the error 500 that carries
    the route's fixed detail exactly when its data access call raised,
    whatever was raised and with whatever message: nothing of the exception
    reaches the client. For the delete and the create route this is the
    only 500 they answer: their status is 500 exactly when the data access
    call raised. (The list and the summary route can also answer a 500 of
    the framework, without that detail, when the rows that were returned do
    not pass the response model; that answer is not the one meant here.) *)
Theorem storage_failure_is_an_opaque_500
    (self : ExpenseDatabase) (sc : script) (scs : nat → script) (w : world) :
  (∀ d, (∃ e, fst (fetch_expenses_for_date self sc d w) = Raise e)
        ↔ fst (route_get_expenses (Some self) sc d w)
          = Error 500 DETAIL_FETCH)
  ∧ (∀ d, (∃ e, fst (delete_expenses_for_date self sc d w) = Raise e)
          ↔ fst (route_delete_expenses (Some self) sc d w)
            = Error 500 DETAIL_DELETE)
  ∧ (∀ s e, date_gt s e = false →
       ((∃ err, fst (fetch_expense_summary self sc s e w) = Raise err)
        ↔ fst (route_summary (Some self) sc s e w)
          = Error 500 DETAIL_SUMMARY))
  ∧ (∀ d body expenses, mapM Expense.validate body = Some expenses →
       ((∃ e, fst (insert_each self scs d expenses [] w) = Raise e)
        ↔ fst (route_add_expenses (Some self) scs d body w)
          = Error 500 DETAIL_ADD))
  ∧ (∀ d, (∃ e, fst (delete_expenses_for_date self sc d w) = Raise e)
          ↔ status (fst (route_delete_expenses (Some self) sc d w)) = 500)
  ∧ (∀ d body expenses, mapM Expense.validate body = Some expenses →
       ((∃ e, fst (insert_each self scs d expenses [] w) = Raise e)
        ↔ status (fst (route_add_expenses (Some self) scs d body w)) = 500)).
Proof.
  split_and!.
  - intros d.
    unfold route_get_expenses, respond, get_expenses_for_date, try_except, bind.
    destruct (fetch_expenses_for_date self sc d w) as [[rows|e] w1];
      cbn [fst ret raise].
    + destruct (mapM _ rows); (split; [intros [? H]|intros H]); discriminate H.
    + split; [done|eauto].
  - intros d.
    unfold route_delete_expenses, respond, delete_expenses_for_date_handler,
      try_except, bind.
    destruct (delete_expenses_for_date self sc d w) as [[n|e] w1];
      cbn [fst ret raise].
    + split; [intros [? H]|intros H]; discriminate H.
    + split; [done|eauto].
  - intros s e Hle.
    unfold route_summary, respond, get_expense_summary, try_except, bind.
    rewrite Hle.
    destruct (fetch_expense_summary self sc s e w) as [[rows|err] w1];
      cbn [fst ret raise].
    + destruct (mapM _ rows); (split; [intros [? H]|intros H]); discriminate H.
    + split; [done|eauto].
  - intros d body expenses Hv.
    unfold route_add_expenses, respond, add_expenses_for_date, try_except, bind.
    rewrite Hv.
    destruct (insert_each self scs d expenses [] w) as [[ids|e] w1];
      cbn [fst ret raise].
    + split; [intros [? H]|intros H]; discriminate H.
    + split; [done|eauto].
  - intros d.
    unfold route_delete_expenses, respond, delete_expenses_for_date_handler,
      try_except, bind.
    destruct (delete_expenses_for_date self sc d w) as [[n|e] w1];
      cbn [fst ret raise status].
    + split; [intros [? H]|intros H]; discriminate H.
    + split; [done|eauto].
  - intros d body expenses Hv.
    unfold route_add_expenses, respond, add_expenses_for_date, try_except, bind.
    rewrite Hv.
    destruct (insert_each self scs d expenses [] w) as [[ids|e] w1];
      cbn [fst ret raise status].
    + split; [intros [? H]|intros H]; discriminate H.
    + split; [done|eauto].
Qed.

Lemma storage_failure_is_an_opaque_500_witness :
  fst (route_summary (Some default_db)
         (Script (Fail (MySQLError "Access denied for user root") true)
                 Pass Pass Pass false Pass Pass Pass Pass)
         (aug 1) (aug 31) fresh)
  = Error 500 DETAIL_SUMMARY.
Proof.
  apply (proj1 (proj2 (proj2 (storage_failure_is_an_opaque_500 default_db
           (Script (Fail (MySQLError "Access denied for user root") true)
                   Pass Pass Pass false Pass Pass Pass Pass)
           (λ _, calm) fresh)))
         (aug 1) (aug 31) eq_refl).
  exists (MySQLError "Access denied for user root"). reflexivity.
Defined.

(** X14. The health probe answers 200 and leaves the table and the id
    counter as they are, with or without a storage handle and whatever the
    driver does. *)
Theorem health_probe_is_harmless (db : option ExpenseDatabase) (sc : script)
    (today : date) (w : world) :
  status (fst (route_health db sc today w)) = 200
  ∧ table (snd (route_health db sc today w)) = table w
  ∧ auto_increment (snd (route_health db sc today w)) = auto_increment w.
Proof.
  unfold route_health, respond, health_check, try_except, bind.
  destruct db as [self|]; [|done].
  destruct (proj1 (reads_keep_storage self sc w) today) as [Ht Ha].
  destruct (fetch_expenses_for_date self sc today w) as [[rows|e] w1]; done.
Qed.

(** ** Batches *)

Lemma insert_each_length (self : ExpenseDatabase) (d : date)
    (expenses : list Expense.t) :
  ∀ (scs : nat → script) (acc ids : list Z) (w : world),
    fst (insert_each self scs d expenses acc w) = Return ids →
    length ids = (length acc + length expenses)%nat.
Proof.
  induction expenses as [|x rest IH]; intros scs acc ids w H.
  - cbn in H. injection H as <-. cbn [length]. lia.
  - cbn [insert_each] in H. unfold bind in H.
    destruct (insert_expense self (scs 0%nat) d (Expense.category x)
                (Expense.notes x) (Expense.amount x) w) as [[id|e] w1];
      [|discriminate].
    apply IH in H. rewrite length_app in H. cbn [length] in *. lia.
Qed.

(** X15. Whatever the driver does, when the create route answers 200 the
    count and the number of ids in the answer are the number of submitted
    items. *)
Theorem created_count_is_batch_size
    (db : option ExpenseDatabase) (scs : nat → script) (d : date)
    (body : list Expense.raw) (w : world) (answer : ExpenseCreateResponse) :
  fst (route_add_expenses db scs d body w) = OK answer →
  inserted_count answer = Z.of_nat (length body)
  ∧ length (inserted_ids answer) = length body.
Proof.
  unfold route_add_expenses.
  destruct (mapM Expense.validate body) as [expenses|] eqn:Hv; [|discriminate].
  apply length_mapM in Hv.
  unfold respond, add_expenses_for_date, try_except, bind.
  destruct db as [self|]; [|discriminate].
  destruct (insert_each self scs d expenses [] w) as [[ids|e] w1] eqn:He;
    cbn [fst ret raise]; [|discriminate].
  intros [= <-]. cbn [inserted_count inserted_ids].
  pose proof (insert_each_length self d expenses scs [] ids w) as Hlen.
  rewrite He in Hlen. specialize (Hlen eq_refl). cbn in Hlen. lia.
Qed.

Lemma created_count_is_batch_size_witness :
  inserted_count
    {| created_message := "Successfully added 1 expense(s) for 2024-08-01.";
       inserted_count := 1; inserted_ids := [1] |}
  = Z.of_nat (length [Expense.Raw (Some "Food") (Some "Lunch") (Some (51 # 2))]).
Proof.
  refine (proj1 (created_count_is_batch_size (Some default_db) (λ _, calm)
                   (aug 1)
                   [Expense.Raw (Some "Food") (Some "Lunch") (Some (51 # 2))]
                   fresh _ _)).
  vm_compute. reflexivity.
Defined.





(** ** The response models *)

Lemma summary_row_through_response_model (c : string) (x : Q) :
  ExpenseSummary.dump <$> ExpenseSummary.of_dict (summary_row c x)
  = Some (summary_row c x).
Proof. reflexivity. Qed.

(** X17. With a storage handle, dates in order and a read that passes, the
    summary route answers 200 with the rows the data access layer returned,
    unchanged: [ExpenseSummary] declares both columns of the statement. *)
Theorem summary_route_sends_rows_unchanged
    (self : ExpenseDatabase) (sc : script) (s e : date) (w : world) :
  reads sc → date_gt s e = false →
  ∃ rows,
    fst (fetch_expense_summary self sc s e w) = Return rows
    ∧ fst (route_summary (Some self) sc s e w) = OK rows.
Proof.
  intros Hsc Hle. exists (summary_of s e (table w)).
  pose proof (summary_reads self sc s e w Hsc) as Hr. split; [exact Hr|].
  unfold route_summary, respond, get_expense_summary, try_except, bind.
  rewrite Hle.
  destruct (fetch_expense_summary self sc s e w) as [r w1].
  cbn [fst] in Hr. subst r. cbn [ret fst].
  assert (Hm : mapM (λ o, ExpenseSummary.dump <$> ExpenseSummary.of_dict o)
                 (summary_of s e (table w))
               = Some (summary_of s e (table w))).
  { rewrite summary_of_unfold. apply mapM_Some_2, Forall2_fmap.
    apply Forall_Forall2_diag, Forall_forall. intros c _.
    apply summary_row_through_response_model. }
  by rewrite Hm.
Qed.

Lemma summary_route_sends_rows_unchanged_witness :
  ∃ rows,
    fst (fetch_expense_summary default_db calm (aug 1) (aug 31)
           (World [Row 7 (aug 1) "Food" "Lunch" (51 # 2)] 8
                  None None None [] 0 0 []))
    = Return rows
    ∧ fst (route_summary (Some default_db) calm (aug 1) (aug 31)
             (World [Row 7 (aug 1) "Food" "Lunch" (51 # 2)] 8
                    None None None [] 0 0 []))
      = OK rows.
Proof.
  apply summary_route_sends_rows_unchanged.
  - repeat split.
  - reflexivity.
Defined.

(** X18. Writing an [Expense] out and reading it back gives the same
    instance exactly when its amount is positive (otherwise it is refused);
    writing an [ExpenseSummary] out and reading it back always gives the
    same instance. *)
Theorem models_survive_a_round_trip (e : Expense.t) (t : ExpenseSummary.t) :
  ((0 < Expense.amount e)%Q
   ↔ Expense.validate (Expense.of_dict (Expense.dump e)) = Some e)
  ∧ ((Expense.amount e <= 0)%Q
     ↔ Expense.validate (Expense.of_dict (Expense.dump e)) = None)
  ∧ ExpenseSummary.of_dict (ExpenseSummary.dump t) = Some t.
Proof.
  assert (H : Expense.validate (Expense.of_dict (Expense.dump e))
              = (if gt0 (Expense.amount e) then Some e else None)).
  { destruct e as [c n a]. reflexivity. }
  split_and!.
  - rewrite H, <- gt0_spec. destruct (gt0 (Expense.amount e)); split; done.
  - rewrite H. destruct (gt0 (Expense.amount e)) eqn:Hg.
    + apply gt0_spec in Hg. split; [|done].
      intros Hle. by apply Qlt_not_le in Hg.
    + split; [done|intros _].
      apply Qnot_lt_le. intros Hpos%gt0_spec. congruence.
  - destruct t as [c x]. reflexivity.
Qed.

(** ** The handle *)

(** X1. For each connection parameter of the handle: an argument that is
    not the empty text is taken as it is, whatever the environment; an
    argument that is the empty text counts as no argument; without an
    argument the environment variable is taken when it is set, also when
    it is set to the empty text, and the default is taken only when the
    variable is not set. *)
Theorem init_takes_argument_then_environment_then_default
    (env : gmap string string) (h u p n : option string) :
  (∀ a, a ≠ "" →
     host (ExpenseDatabase_init env (Some a) u p n) = a
     ∧ user (ExpenseDatabase_init env h (Some a) p n) = a
     ∧ password (ExpenseDatabase_init env h u (Some a) n) = a
     ∧ database (ExpenseDatabase_init env h u p (Some a)) = a)
  ∧ (ExpenseDatabase_init env (Some "") u p n
     = ExpenseDatabase_init env None u p n
     ∧ ExpenseDatabase_init env h (Some "") p n
       = ExpenseDatabase_init env h None p n
     ∧ ExpenseDatabase_init env h u (Some "") n
       = ExpenseDatabase_init env h u None n
     ∧ ExpenseDatabase_init env h u p (Some "")
       = ExpenseDatabase_init env h u p None)
  ∧ (∀ v,
       (env !! "DB_HOST" = Some v →
        host (ExpenseDatabase_init env None u p n) = v)
       ∧ (env !! "DB_USER" = Some v →
          user (ExpenseDatabase_init env h None p n) = v)
       ∧ (env !! "DB_PASSWORD" = Some v →
          password (ExpenseDatabase_init env h u None n) = v)
       ∧ (env !! "DB_NAME" = Some v →
          database (ExpenseDatabase_init env h u p None) = v))
  ∧ (env !! "DB_HOST" = None →
     host (ExpenseDatabase_init env None u p n) = "localhost")
  ∧ (env !! "DB_USER" = None →
     user (ExpenseDatabase_init env h None p n) = "root")
  ∧ (env !! "DB_PASSWORD" = None →
     password (ExpenseDatabase_init env h u None n) = "1234")
  ∧ (env !! "DB_NAME" = None →
     database (ExpenseDatabase_init env h u p None) = "expense_manager").
Proof.
  unfold ExpenseDatabase_init, getenv. cbn [host user password database py_or].
  split_and!.
  - intros a Ha. by rewrite !decide_False.
  - done.
  - done.
  - done.
  - done.
  - intros v. split_and!; by intros ->.
  - by intros ->.
  - by intros ->.
  - by intros ->.
  - by intros ->.
Qed.

Lemma init_takes_argument_then_environment_then_default_witness :
  host (ExpenseDatabase_init (<["DB_HOST" := "test-host"]> ∅)
          (Some "db.example") None None None) = "db.example"
  ∧ host (ExpenseDatabase_init (<["DB_HOST" := "test-host"]> ∅)
            None None None None) = "test-host"
  ∧ user (ExpenseDatabase_init (<["DB_HOST" := "test-host"]> ∅)
            None None None None) = "root".
Proof.
  pose proof (init_takes_argument_then_environment_then_default
                (<["DB_HOST" := "test-host"]> ∅) None None None None)
    as (Harg & _ & Henv & _ & Huser & _).
  split_and!.
  - apply (Harg "db.example"). discriminate.
  - apply (Henv "test-host"). reflexivity.
  - apply Huser. reflexivity.
Defined.
